(** * Solana Token Manager: the client-side lifecycle, embedded and verified

    A shallow embedding of the dashboard's own logic:
    - [truncateAddress]                        (src/lib/utils.ts)
    - amount scaling, [mintToken], the decimals effect and the recency list
                                               (the mint-token component)
    - [sendToken], [fetchTokenAccounts]        (src/components/send-token.tsx)
    - [createToken]                            (src/components/create-token.tsx)
    - [disconnectWallet], [connectWallet], [checkPhantomWallet]
                                               (src/components/wallet-connect.tsx)
    - [fetchTransactions]                      (src/components/transaction-history.tsx)
    - [showNotification], [getBalance]         (the Home page)

    The wallet provider, the RPC connection, the SPL-token helpers and
    localStorage are collaborators: each call to one of them is an event of
    the trace, and its outcome is read from an environment record. *)

From Stdlib Require Import ZArith List String Ascii Bool Lia.
From Stdlib Require Import Floats.
Import ListNotations.
Local Open Scope string_scope.
Local Open Scope list_scope.
Local Open Scope Z_scope.

(* ===================================================================== *)
(** * JavaScript numbers *)
(* ===================================================================== *)

(** A JS [number] is an IEEE-754 binary64 value.  [spec_float] is the
    Standard Library's specification of such values; every operation below
    is its instance at precision 53 and maximal exponent 1024, computed over
    [Z] with round-to-nearest, ties-to-even. *)
Module JSNumber.

Definition number := spec_float.

Definition prec : Z := 53.
Definition emax : Z := 1024.

Definition NaN : number := S754_nan.

(** The product [x * y] of JS. *)
Definition mul (x y : number) : number := SFmul prec emax x y.

(** The double nearest to the rational [n / d] ([n], [d] positive), with
    sign [neg]: one correctly rounded division of two exact integers. *)
Definition of_ratio (neg : bool) (n d : positive) : number :=
  SFdiv prec emax (S754_finite neg n 0) (S754_finite false d 0).

(** The double nearest to the integer [z]. *)
Definition of_Z (z : Z) : number := binary_normalize prec emax z 0 false.

(** [Math.pow(10, d)] for a non-negative integer [d]: the double nearest to
    [10^d], which is [10^d] itself up to [d = 22]. *)
Definition Math_pow10 (d : nat) : number := of_Z (10 ^ Z.of_nat d).

(** [Math.floor]: zeros, infinities and NaN are returned as they are; a
    finite [±m·2^e] with [e >= 0] is an integer already; otherwise the
    mantissa is shifted right, rounding toward minus infinity. *)
Definition Math_floor (x : number) : number :=
  match x with
  | S754_finite s m e =>
      if 0 <=? e then x
      else binary_normalize prec emax (Z.shiftr (cond_Zopp s (Zpos m)) (- e)) 0 s
  | _ => x
  end.

(** The integer a double is, when it is one. *)
Definition integer_value (x : number) : option Z :=
  match x with
  | S754_zero _ => Some 0
  | S754_finite s m e =>
      if 0 <=? e then Some (cond_Zopp s (Zpos m * 2 ^ e))
      else if Zpos m mod 2 ^ (- e) =? 0 then Some (cond_Zopp s (Zpos m / 2 ^ (- e)))
      else None
  | _ => None
  end.

(** ** Decimal literals *)

(** The exact value of a parsed literal: [(-1)^neg * digits * 10^exp10]. *)
Record decimal := mkDecimal { dec_neg : bool; dec_digits : N; dec_exp10 : Z }.

Inductive literal :=
| LitNaN
| LitInfinity (neg : bool)
| LitDecimal (d : decimal).

(** The double a literal denotes (the rounding step of StringToNumber). *)
Definition decimal_to_number (d : decimal) : number :=
  match dec_digits d with
  | N0 => S754_zero (dec_neg d)
  | Npos m =>
      if 0 <=? dec_exp10 d
      then of_ratio (dec_neg d) (m * Z.to_pos (10 ^ dec_exp10 d)) 1
      else of_ratio (dec_neg d) m (Z.to_pos (10 ^ (- dec_exp10 d)))
  end.

Definition literal_to_number (l : literal) : number :=
  match l with
  | LitNaN => NaN
  | LitInfinity neg => S754_infinity neg
  | LitDecimal d => decimal_to_number d
  end.

(** ** The scanner of [Number.parseFloat] *)

Definition is_whitespace (c : ascii) : bool :=
  let n := nat_of_ascii c in
  ((9 <=? n) && (n <=? 13))%nat || (n =? 32)%nat.

Definition digit_of (c : ascii) : option N :=
  let n := N_of_ascii c in
  if ((48 <=? n) && (n <=? 57))%N then Some (n - 48)%N else None.

Fixpoint trimStart (s : string) : string :=
  match s with
  | String c s' => if is_whitespace c then trimStart s' else s
  | EmptyString => s
  end.

(** Reads the longest run of decimal digits at the head of [s], continuing
    the accumulator [acc]: the number read, how many digits, and the rest. *)
Fixpoint scan_digits (acc : N) (count : nat) (s : string) : N * nat * string :=
  match s with
  | String c s' =>
      match digit_of c with
      | Some d => scan_digits (10 * acc + d)%N (S count) s'
      | None => (acc, count, s)
      end
  | EmptyString => (acc, count, s)
  end.

Definition scan_sign (s : string) : bool * string :=
  match s with
  | String "-" s' => (true, s')
  | String "+" s' => (false, s')
  | _ => (false, s)
  end.

(** The exponent part [e[+-]digits]; it counts only when a digit follows. *)
Definition scan_exponent (s : string) : Z :=
  match s with
  | String c s' =>
      if (Ascii.eqb c "e" || Ascii.eqb c "E")%bool then
        let '(neg, s'') := scan_sign s' in
        let '(e, k, _) := scan_digits 0%N 0%nat s'' in
        match k with
        | O => 0
        | S _ => if neg then - Z.of_N e else Z.of_N e
        end
      else 0
  | EmptyString => 0
  end.

(** The longest prefix of the trimmed string that is a StrDecimalLiteral:
    sign, then [Infinity], or digits with an optional fraction and exponent,
    or a fraction alone.  Anything after the prefix is ignored; no prefix
    gives NaN. *)
Definition parseLiteral (input : string) : literal :=
  let '(neg, s) := scan_sign (trimStart input) in
  if prefix "Infinity" s then LitInfinity neg
  else
    let '(ip, ni, s1) := scan_digits 0%N 0%nat s in
    let '(m, nf, s2) :=
      match s1 with
      | String "." s1' =>
          let '(m, nf, s2) := scan_digits ip 0%nat s1' in
          match ni, nf with
          | O, O => (ip, 0%nat, s1)
          | _, _ => (m, nf, s2)
          end
      | _ => (ip, 0%nat, s1)
      end in
    match ni, nf with
    | O, O => LitNaN
    | _, _ => LitDecimal (mkDecimal neg m (scan_exponent s2 - Z.of_nat nf))
    end.

Definition parseFloat (input : string) : number :=
  literal_to_number (parseLiteral input).

(** ** [Number.parseInt] with no radix, as [createToken] calls it: sign,
    then hexadecimal digits after a [0x] prefix or else decimal digits, read
    from the trimmed string up to the first character that is no digit; no
    digit at all gives NaN.  The result is the double of the integer read. *)
Definition hex_digit_of (c : ascii) : option N :=
  let n := N_of_ascii c in
  if ((48 <=? n) && (n <=? 57))%N then Some (n - 48)%N
  else if ((97 <=? n) && (n <=? 102))%N then Some (n - 87)%N
  else if ((65 <=? n) && (n <=? 70))%N then Some (n - 55)%N
  else None.

Fixpoint scan_hex_digits (acc : N) (count : nat) (s : string) : N * nat :=
  match s with
  | String c s' =>
      match hex_digit_of c with
      | Some d => scan_hex_digits (16 * acc + d)%N (S count) s'
      | None => (acc, count)
      end
  | EmptyString => (acc, count)
  end.

Definition parseInt (input : string) : number :=
  let '(neg, s) := scan_sign (trimStart input) in
  let '(n, k) :=
    match s with
    | String "0" (String x s') =>
        if (Ascii.eqb x "x" || Ascii.eqb x "X")%bool
        then scan_hex_digits 0%N 0%nat s'
        else let '(n, k, _) := scan_digits 0%N 0%nat s in (n, k)
    | _ => let '(n, k, _) := scan_digits 0%N 0%nat s in (n, k)
    end in
  match k with
  | O => NaN
  | S _ => binary_normalize prec emax (cond_Zopp neg (Z.of_N n)) 0 neg
  end.

End JSNumber.
Import JSNumber.

(* ===================================================================== *)
(** * Amount scaling *)
(* ===================================================================== *)

(** [Math.floor(Number.parseFloat(amount) * Math.pow(10, decimals))]: the
    expression both [mintToken] and [sendToken] compute. *)
Definition scaleAmount (amount : string) (decimals : nat) : number :=
  Math_floor (mul (parseFloat amount) (Math_pow10 decimals)).

(** What the specification asks for: the floor of the exact product of the
    display amount, read as the decimal it spells, and [10^decimals]. *)
Definition exact_base_units (d : decimal) (decimals : nat) : Z :=
  let m := if dec_neg d then - Z.of_N (dec_digits d) else Z.of_N (dec_digits d) in
  let e := dec_exp10 d + Z.of_nat decimals in
  if 0 <=? e then m * 10 ^ e else m / 10 ^ (- e).

Definition spec_base_units (amount : string) (decimals : nat) : option Z :=
  match parseLiteral amount with
  | LitDecimal d => Some (exact_base_units d decimals)
  | _ => None
  end.

(* ===================================================================== *)
(** * Effects: collaborators, events and the component monad *)
(* ===================================================================== *)

Inductive NotificationType := success | error.

(** The instructions the orchestrators build with the SPL-token helpers
    [createMintToInstruction] and [createTransferInstruction]. *)
Inductive Instruction :=
| MintTo (mint destination authority : string) (amount : number)
| Transfer (source destination owner : string) (amount : number).

(** A web3.js [Transaction] as far as the components touch it. *)
Record Transaction := mkTransaction {
  instructions : list Instruction;
  recentBlockhash : option string;
  feePayer : option string
}.

(** A request sent across the collaborator boundary. *)
Inductive Request :=
| GetOrCreateAssociatedTokenAccount (payer mint owner : string)  (* ledger *)
| GetLatestBlockhash                                              (* ledger *)
| SignTransaction (tx : Transaction)                              (* wallet *)
| SendRawTransaction (raw : string)                               (* ledger: submit *)
| ConfirmTransaction (signature : string)                         (* ledger *)
| CreateMint (payer mintAuthority freezeAuthority : string)
             (decimals : number) (mintAccount : string)           (* ledger *)
| GetMint (mint : string)                                         (* ledger *)
| Disconnect                                                      (* wallet *)
| GetSignaturesForAddress (address : string) (limit : nat)        (* ledger *)
| GetParsedTransaction (signature : string)                       (* ledger *)
| StorageSetItem (key : string) (value : list string).            (* localStorage *)

(** How a call (or a block of code) completes: with a value, or by throwing;
    [thrown] is the text of the error object. *)
Inductive Completion (A : Type) :=
| Normal (value : A)
| Throw (thrown : string).
Arguments Normal {A} value.
Arguments Throw {A} thrown.

Inductive CallStatus := Returned | Threw (thrown : string).

Definition status_of {A} (c : Completion A) : CallStatus :=
  match c with
  | Normal _ => Returned
  | Throw e => Threw e
  end.

(** What an invocation does to the outside, in order. *)
Inductive Event :=
| Notify (type : NotificationType) (message : string)   (* showNotification *)
| ConsoleError (label detail : string)                  (* console.error *)
| Call (request : Request) (status : CallStatus).

(** A pending promise's eventual state; [disconnectWallet] never awaits it. *)
Inductive Settlement := Fulfilled | Rejected (reason : string).

(** Transaction history as the ledger returns it. *)
Inductive TransactionError := ErrorObject | ErrorName (name : string).

Record ConfirmedSignatureInfo := mkSignatureInfo {
  sig_signature : string;
  sig_slot : Z;
  sig_err : option TransactionError;       (* null when the transaction succeeded *)
  sig_blockTime : option Z                 (* null or undefined when unknown *)
}.

Record ParsedInstruction := mkParsedInstruction {
  ix_programId : option string             (* [ix.programId?.toString()] *)
}.

Record ParsedTransactionWithMeta := mkParsedTransaction {
  tx_meta_present : bool;                  (* [tx.meta] is not null *)
  tx_instructions : list ParsedInstruction (* [tx.transaction.message.instructions] *)
}.

(** The collaborators of one invocation: what each call answers. *)
Record Env := mkEnv {
  (** [window.solana] is defined *)
  walletInjected : bool;
  (** [new PublicKey(s)] accepts [s] *)
  isPublicKey : string -> bool;
  (** the SPL-token instruction builders accept the amount (they convert
      it with [BigInt] and encode it as an unsigned 64-bit integer) *)
  encodesAmount : number -> bool;
  (** [Keypair.generate().publicKey] *)
  generatedMint : string;
  (** the [n]-th call of the invocation, for mint and owner *)
  getOrCreateAssociatedTokenAccount : nat -> string -> string -> Completion string;
  getLatestBlockhash : Completion string;
  (** [window.solana.signTransaction(tx)] followed by [signed.serialize()] *)
  signTransaction : Transaction -> Completion string;
  sendRawTransaction : string -> Completion string;
  confirmTransaction : string -> Completion unit;
  createMint : string -> string -> string -> number -> string -> Completion string;
  getMint : string -> Completion nat;
  disconnect : Completion Settlement;
  getSignaturesForAddress : string -> nat -> Completion (list ConfirmedSignatureInfo);
  getParsedTransaction : string -> Completion (option ParsedTransactionWithMeta);
  storageSetItem : string -> list string -> Completion unit
}.

(** [localStorage]: keys to values; a stored list of strings stands for its
    JSON text. *)
Definition Storage := list (string * list string).

Definition storage_set (key : string) (value : list string) (st : Storage) : Storage :=
  (key, value) :: filter (fun kv => negb (String.eqb (fst kv) key)) st.

Definition storage_get (key : string) (st : Storage) : option (list string) :=
  option_map snd (find (fun kv => String.eqb (fst kv) key) st).

(** The mutable world of a component: its React state and [localStorage]. *)
Record World (C : Type) := mkWorld { component : C; localStorage : Storage }.
Arguments mkWorld {C} component localStorage.
Arguments component {C} w.
Arguments localStorage {C} w.

Section ComponentMonad.
Context {C : Type}.

Definition M (A : Type) : Type := World C -> Completion A * World C * list Event.

Definition ret {A} (a : A) : M A := fun w => (Normal a, w, []).

Definition bind {A B} (m : M A) (k : A -> M B) : M B :=
  fun w =>
    match m w with
    | (Normal a, w1, t1) => let '(r, w2, t2) := k a w1 in (r, w2, t1 ++ t2)
    | (Throw e, w1, t1) => (Throw e, w1, t1)
    end.

Definition throw {A} (e : string) : M A := fun w => (Throw e, w, []).

Definition emit (ev : Event) : M unit := fun w => (Normal tt, w, [ev]).

(** A React state setter. *)
Definition setState (f : C -> C) : M unit :=
  fun w => (Normal tt, mkWorld (f (component w)) (localStorage w), []).

(** An event handler runs with the state of the latest render: the values
    its closure captured. *)
Definition withRender {A} (handler : C -> M A) : M A :=
  fun w => handler (component w) w.

(** A call across the boundary: logged with how it completed. *)
Definition call {A} (req : Request) (answer : Completion A) : M A :=
  fun w => (answer, w, [Call req (status_of answer)]).

(** [try { body } catch (error) { handler }] *)
Definition try_catch {A} (body : M A) (handler : string -> M A) : M A :=
  fun w =>
    match body w with
    | (Normal a, w1, t1) => (Normal a, w1, t1)
    | (Throw e, w1, t1) => let '(r, w2, t2) := handler e w1 in (r, w2, t1 ++ t2)
    end.

(** [try { body } finally { cleanup }] *)
Definition try_finally {A} (body : M A) (cleanup : M unit) : M A :=
  fun w =>
    let '(r, w1, t1) := body w in
    match cleanup w1 with
    | (Normal _, w2, t2) => (r, w2, t1 ++ t2)
    | (Throw e, w2, t2) => (Throw e, w2, t1 ++ t2)
    end.

Definition showNotification (type : NotificationType) (message : string) : M unit :=
  emit (Notify type message).

Definition console_error (label detail : string) : M unit :=
  emit (ConsoleError label detail).

(** [new PublicKey(s)] *)
Definition newPublicKey (env : Env) (s : string) : M string :=
  if isPublicKey env s then ret s else throw "Invalid public key input".

(** [createMintToInstruction(mint, destination, authority, amount)] *)
Definition createMintToInstruction (env : Env)
    (mint destination authority : string) (amount : number) : M Instruction :=
  if encodesAmount env amount then ret (MintTo mint destination authority amount)
  else throw "The number cannot be converted to a BigInt".

(** [createTransferInstruction(source, destination, owner, amount)] *)
Definition createTransferInstruction (env : Env)
    (source destination owner : string) (amount : number) : M Instruction :=
  if encodesAmount env amount then ret (Transfer source destination owner amount)
  else throw "The number cannot be converted to a BigInt".

(** [if (!window.solana) throw new Error("Wallet not connected")] *)
Definition requireWallet (env : Env) : M unit :=
  if walletInjected env then ret tt else throw "Wallet not connected".

(** [localStorage.setItem(key, JSON.stringify(value))] *)
Definition localStorage_setItem (env : Env) (key : string) (value : list string) : M unit :=
  fun w =>
    match storageSetItem env key value with
    | Normal _ =>
        (Normal tt, mkWorld (component w) (storage_set key value (localStorage w)),
         [Call (StorageSetItem key value) Returned])
    | Throw e => (Throw e, w, [Call (StorageSetItem key value) (Threw e)])
    end.
End ComponentMonad.
Arguments M C A : clear implicits.

Declare Scope component_scope.
Delimit Scope component_scope with component.
Notation "x <- c ;; k" := (bind c (fun x => k))
  (at level 61, c at next level, right associativity) : component_scope.
Notation "c ;; k" := (bind c (fun _ => k))
  (at level 61, right associativity) : component_scope.
Local Open Scope component_scope.

(** A JS string is falsy exactly when it is empty. *)
Definition isEmpty (s : string) : bool :=
  match s with
  | EmptyString => true
  | String _ _ => false
  end.

(** [Array.prototype.includes] on strings. *)
Definition includes (x : string) (l : list string) : bool :=
  existsb (String.eqb x) l.

(** ** Readings of a trace *)

Definition notifications (t : list Event) : list (NotificationType * string) :=
  flat_map (fun ev => match ev with Notify k m => [(k, m)] | _ => [] end) t.

Definition requests (t : list Event) : list Request :=
  flat_map (fun ev => match ev with Call r _ => [r] | _ => [] end) t.

Definition is_submit (r : Request) : bool :=
  match r with
  | SendRawTransaction _ => true
  | _ => false
  end.

(** Some call of the trace threw. *)
Definition has_failure (t : list Event) : bool :=
  existsb (fun ev => match ev with Call _ (Threw _) => true | _ => false end) t.


(* ===================================================================== *)
(** * The mint-token component *)
(* ===================================================================== *)

Module MintToken.

(** The component's React state ([useState] in declaration order). *)
Record State := mkState {
  tokenMintAddress : string;
  amount : string;
  isLoading : bool;
  tokenDecimals : nat;
  recentTokens : list string
}.

(** The state of a freshly mounted component. *)
Definition initial : State := mkState "" "" false 9 [].

Definition setTokenMintAddress (v : string) : M State unit :=
  setState (fun s => mkState v (amount s) (isLoading s) (tokenDecimals s) (recentTokens s)).
Definition setAmount (v : string) : M State unit :=
  setState (fun s => mkState (tokenMintAddress s) v (isLoading s) (tokenDecimals s) (recentTokens s)).
Definition setIsLoading (v : bool) : M State unit :=
  setState (fun s => mkState (tokenMintAddress s) (amount s) v (tokenDecimals s) (recentTokens s)).
Definition setTokenDecimals (v : nat) : M State unit :=
  setState (fun s => mkState (tokenMintAddress s) (amount s) (isLoading s) v (recentTokens s)).
Definition setRecentTokens (v : list string) : M State unit :=
  setState (fun s => mkState (tokenMintAddress s) (amount s) (isLoading s) (tokenDecimals s) v).

Definition fill_in_all_fields : string := "Please fill in all fields".
Definition failed_to_mint : string :=
  "Failed to mint tokens. Make sure you are the mint authority.".
Definition successfully_minted (amount : string) : string :=
  ("Successfully minted " ++ amount ++ " tokens!")%string.

(** The effect that runs when [tokenMintAddress] has changed
    ([fetchTokenDecimals], lines 38-52). *)
Definition fetchTokenDecimals (env : Env) (tokenMintAddress : string) : M State unit :=
  if (isEmpty tokenMintAddress || (String.length tokenMintAddress <? 32)%nat)%bool
  then ret tt
  else
    try_catch
      (key <- newPublicKey env tokenMintAddress ;;
       decimals <- call (GetMint key) (getMint env key) ;;
       setTokenDecimals decimals)
      (fun thrown =>
         console_error "Error fetching token info:" thrown
         (* Keep default decimals if there's an error *)).

(** The user enters (types, pastes or picks) a mint address: the input's
    [onChange] stores it, and the effect above runs for the new value. *)
Definition enterMintAddress (env : Env) (address : string) : M State unit :=
  setTokenMintAddress address ;;
  fetchTokenDecimals env address.

(** The user types an amount: the input's [onChange] stores it. *)
Definition enterAmount (value : string) : M State unit := setAmount value.

(** The recency list after a confirmed mint of [address] (lines 110-111). *)
Definition updatedTokens (address : string) (recent : list string) : list string :=
  firstn 5 (address :: recent).

(** [mintToken] (lines 54-124).  [props_walletAddress] is the component's
    prop; [render] is the state the handler's closure captured, from which
    every state variable is read. *)
Definition mintToken (env : Env) (props_walletAddress : string) (render : State)
  : M State unit :=
  if (isEmpty (tokenMintAddress render) || isEmpty (amount render))%bool then
    showNotification error fill_in_all_fields
  else
    setIsLoading true ;;
    try_finally
      (try_catch
         (mintPublicKey <- newPublicKey env (tokenMintAddress render) ;;
          userPublicKey <- newPublicKey env props_walletAddress ;;
          tokenAccount <-
            call (GetOrCreateAssociatedTokenAccount userPublicKey mintPublicKey userPublicKey)
                 (getOrCreateAssociatedTokenAccount env 0 mintPublicKey userPublicKey) ;;
          let amountToMint := scaleAmount (amount render) (tokenDecimals render) in
          instruction <-
            createMintToInstruction env mintPublicKey tokenAccount userPublicKey amountToMint ;;
          requireWallet env ;;
          blockhash <- call GetLatestBlockhash (getLatestBlockhash env) ;;
          let transaction := mkTransaction [instruction] (Some blockhash) (Some userPublicKey) in
          signed <- call (SignTransaction transaction) (signTransaction env transaction) ;;
          signature <- call (SendRawTransaction signed) (sendRawTransaction env signed) ;;
          call (ConfirmTransaction signature) (confirmTransaction env signature) ;;
          (if negb (includes (tokenMintAddress render) (recentTokens render)) then
             let updated := updatedTokens (tokenMintAddress render) (recentTokens render) in
             setRecentTokens updated ;;
             localStorage_setItem env "recentTokens" updated
           else ret tt) ;;
          showNotification success (successfully_minted (amount render)) ;;
          setAmount "")
         (fun thrown =>
            console_error "Error minting token:" thrown ;;
            showNotification error failed_to_mint))
      (setIsLoading false).

(** One invocation from the rendered state [st]. *)
Definition run_mintToken (env : Env) (walletAddress : string)
    (st : State) (storage : Storage) :=
  withRender (mintToken env walletAddress) (mkWorld st storage).

End MintToken.

(* ===================================================================== *)
(** * The send-token component (src/components/send-token.tsx) *)
(* ===================================================================== *)

Module SendToken.

Record TokenBalance := mkTokenBalance {
  mint : string;
  balance : number;
  decimals : nat
}.

Record State := mkState {
  recipientAddress : string;
  selectedToken : string;
  amount : string;
  isLoading : bool;
  tokenBalances : list TokenBalance;
  isLoadingTokens : bool
}.

Definition setRecipientAddress (v : string) : M State unit :=
  setState (fun s => mkState v (selectedToken s) (amount s) (isLoading s)
                             (tokenBalances s) (isLoadingTokens s)).
Definition setAmount (v : string) : M State unit :=
  setState (fun s => mkState (recipientAddress s) (selectedToken s) v (isLoading s)
                             (tokenBalances s) (isLoadingTokens s)).
Definition setIsLoading (v : bool) : M State unit :=
  setState (fun s => mkState (recipientAddress s) (selectedToken s) (amount s) v
                             (tokenBalances s) (isLoadingTokens s)).

Definition fill_in_all_fields : string := "Please fill in all fields".
Definition failed_to_send : string :=
  "Failed to send tokens. Please check the recipient address and your balance.".
Definition successfully_sent (amount : string) : string :=
  ("Successfully sent " ++ amount ++ " tokens!")%string.

(** [sendToken] (lines 84-182). *)
Definition sendToken (env : Env) (props_walletAddress : string) (render : State)
  : M State unit :=
  if (isEmpty (selectedToken render) || isEmpty (recipientAddress render)
      || isEmpty (amount render))%bool then
    showNotification error fill_in_all_fields
  else
    setIsLoading true ;;
    try_finally
      (try_catch
         (mintPublicKey <- newPublicKey env (selectedToken render) ;;
          senderPublicKey <- newPublicKey env props_walletAddress ;;
          recipientPublicKey <- newPublicKey env (recipientAddress render) ;;
          selectedTokenInfo <-
            match find (fun t => String.eqb (mint t) (selectedToken render))
                       (tokenBalances render) with
            | Some info => ret info
            | None => throw "Selected token not found in your balances"
            end ;;
          let amountToSend := scaleAmount (amount render) (decimals selectedTokenInfo) in
          senderTokenAccount <-
            call (GetOrCreateAssociatedTokenAccount senderPublicKey mintPublicKey senderPublicKey)
                 (getOrCreateAssociatedTokenAccount env 0 mintPublicKey senderPublicKey) ;;
          recipientTokenAccount <-
            call (GetOrCreateAssociatedTokenAccount senderPublicKey mintPublicKey recipientPublicKey)
                 (getOrCreateAssociatedTokenAccount env 1 mintPublicKey recipientPublicKey) ;;
          instruction <-
            createTransferInstruction env senderTokenAccount recipientTokenAccount
              senderPublicKey amountToSend ;;
          requireWallet env ;;
          blockhash <- call GetLatestBlockhash (getLatestBlockhash env) ;;
          let transaction := mkTransaction [instruction] (Some blockhash) (Some senderPublicKey) in
          signed <- call (SignTransaction transaction) (signTransaction env transaction) ;;
          signature <- call (SendRawTransaction signed) (sendRawTransaction env signed) ;;
          call (ConfirmTransaction signature) (confirmTransaction env signature) ;;
          showNotification success (successfully_sent (amount render)) ;;
          setAmount "" ;;
          setRecipientAddress "")
         (fun thrown =>
            console_error "Error sending token:" thrown ;;
            showNotification error failed_to_send))
      (setIsLoading false).

Definition run_sendToken (env : Env) (walletAddress : string)
    (st : State) (storage : Storage) :=
  withRender (sendToken env walletAddress) (mkWorld st storage).

End SendToken.

(* ===================================================================== *)
(** * The create-token component (src/components/create-token.tsx) *)
(* ===================================================================== *)

Module CreateToken.

Record State := mkState {
  tokenName : string;
  tokenSymbol : string;
  decimals : string;
  isLoading : bool;
  createdTokenMint : option string
}.

Definition initial : State := mkState "" "" "9" false None.

Definition setIsLoading (v : bool) : M State unit :=
  setState (fun s => mkState (tokenName s) (tokenSymbol s) (decimals s) v (createdTokenMint s)).
Definition setCreatedTokenMint (v : option string) : M State unit :=
  setState (fun s => mkState (tokenName s) (tokenSymbol s) (decimals s) (isLoading s) v).

Definition fill_in_all_fields : string := "Please fill in all fields".
Definition failed_to_create : string := "Failed to create token. Please try again.".
Definition token_created : string := "Token created successfully!".

(** [createToken] (lines 25-86).  The payer handed to [createMint] is the
    session address with the wallet's signing functions; those wrappers only
    log and rethrow, so a signing failure reaches this function as the
    failure of the [createMint] call. *)
Definition createToken (env : Env) (props_walletAddress : string) (render : State)
  : M State unit :=
  if (isEmpty (tokenName render) || isEmpty (tokenSymbol render)
      || isEmpty (decimals render))%bool then
    showNotification error fill_in_all_fields
  else
    setIsLoading true ;;
    try_finally
      (try_catch
         (let mintAccount := generatedMint env in
          mintAuthority <- newPublicKey env props_walletAddress ;;
          freezeAuthority <- newPublicKey env props_walletAddress ;;
          payer <- newPublicKey env props_walletAddress ;;
          let precision := parseInt (decimals render) in
          mint <- call (CreateMint payer mintAuthority freezeAuthority precision mintAccount)
                       (createMint env payer mintAuthority freezeAuthority precision mintAccount) ;;
          setCreatedTokenMint (Some mint) ;;
          showNotification success token_created)
         (fun thrown =>
            console_error "Error creating token:" thrown ;;
            showNotification error failed_to_create))
      (setIsLoading false).

Definition run_createToken (env : Env) (walletAddress : string)
    (st : State) (storage : Storage) :=
  withRender (createToken env walletAddress) (mkWorld st storage).

End CreateToken.

(* ===================================================================== *)
(** * The wallet-connect component (src/components/wallet-connect.tsx) *)
(* ===================================================================== *)

Module WalletConnect.

(** The session the page holds and hands to this component as props:
    [walletAddress] with its setter, and the cached [solBalance]. *)
Record Session := mkSession {
  walletAddress : option string;
  solBalance : number
}.

Definition setWalletAddress (v : option string) : M Session unit :=
  setState (fun s => mkSession v (solBalance s)).

Definition wallet_disconnected : string := "Wallet disconnected".
Definition failed_to_disconnect : string := "Failed to disconnect wallet".

(** [disconnectWallet] (lines 74-85).  [window.solana.disconnect()] is
    called and not awaited: the promise it returns is dropped, whatever it
    settles to. *)
Definition disconnectWallet (env : Env) : M Session unit :=
  try_catch
    ((if walletInjected env
      then pending <- call Disconnect (disconnect env) ;; ret tt
      else ret tt) ;;
     setWalletAddress None ;;
     showNotification success wallet_disconnected)
    (fun thrown =>
       console_error "Error disconnecting wallet:" thrown ;;
       showNotification error failed_to_disconnect).

Definition run_disconnectWallet (env : Env) (s : Session) (storage : Storage) :=
  disconnectWallet env (mkWorld s storage).

End WalletConnect.

(* ===================================================================== *)
(** * The transaction-history component
      (src/components/transaction-history.tsx) *)
(* ===================================================================== *)

Module TransactionHistory.

Inductive Status := confirmed | failed.

(** A row of the history view (the component's [Transaction] interface). *)
Record Row := mkRow {
  signature : string;
  blockTime : Z;
  slot : Z;
  type : string;
  status : Status
}.

Record State := mkState {
  transactions : list Row;
  isLoading : bool
}.

Definition setTransactions (v : list Row) : M State unit :=
  setState (fun s => mkState v (isLoading s)).
Definition setIsLoading (v : bool) : M State unit :=
  setState (fun s => mkState (transactions s) v).

Definition TOKEN_PROGRAM : string := "TokenkegQfeZyiNwAJbNbGKPFXCWuBvf9Ss623VQ5DA".
Definition SYSTEM_PROGRAM : string := "11111111111111111111111111111111".

(** [instructions.some((ix) => ix.programId?.toString() === id)] *)
Definition some_programId (id : string) (ixs : list ParsedInstruction) : bool :=
  existsb (fun ix => match ix_programId ix with
                     | Some p => String.eqb p id
                     | None => false
                     end) ixs.

(** Lines 40-51: the type of a row, from the parsed transaction. *)
Definition transaction_type (tx : option ParsedTransactionWithMeta) : string :=
  match tx with
  | Some tx =>
      if tx_meta_present tx then
        if some_programId TOKEN_PROGRAM (tx_instructions tx) then "Token"
        else if some_programId SYSTEM_PROGRAM (tx_instructions tx) then "SOL Transfer"
        else "Unknown"
      else "Unknown"
  | None => "Unknown"
  end.

(** JS truthiness of [sig.err]: null is falsy, an error object is truthy,
    an error name is truthy unless it is the empty string. *)
Definition err_truthy (err : option TransactionError) : bool :=
  match err with
  | None => false
  | Some ErrorObject => true
  | Some (ErrorName name) => negb (isEmpty name)
  end.

(** Lines 53-59: the row built for one signature. *)
Definition row_of (sig : ConfirmedSignatureInfo) (tx : option ParsedTransactionWithMeta) : Row :=
  mkRow (sig_signature sig)
        (match sig_blockTime sig with Some t => t | None => 0 end)
        (sig_slot sig)
        (transaction_type tx)
        (if err_truthy (sig_err sig) then failed else confirmed).

(** What the ledger holds for a signature: the parsed transaction it
    answers with, if it answers. *)
Definition parsed (env : Env) (sig : ConfirmedSignatureInfo)
  : option ParsedTransactionWithMeta :=
  match getParsedTransaction env (sig_signature sig) with
  | Normal tx => tx
  | Throw _ => None
  end.

(** [Promise.all] over tasks started in order: every task runs; the results
    keep the order of the tasks; one rejection rejects the whole. *)
Fixpoint promise_all {C A} (tasks : list (M C A)) : M C (list A) :=
  match tasks with
  | [] => ret []
  | task :: rest =>
      fun w =>
        let '(r, w1, t1) := task w in
        let '(rs, w2, t2) := promise_all rest w1 in
        (match r, rs with
         | Throw e, _ => Throw e
         | Normal _, Throw e => Throw e
         | Normal a, Normal l => Normal (a :: l)
         end, w2, t1 ++ t2)
  end.

Definition signature_limit : nat := 10.

(** [fetchTransactions] (lines 28-69), the effect of the history view. *)
Definition fetchTransactions (env : Env) (props_walletAddress : string) : M State unit :=
  if isEmpty props_walletAddress then ret tt
  else
    setIsLoading true ;;
    try_finally
      (try_catch
         (publicKey <- newPublicKey env props_walletAddress ;;
          signatures <- call (GetSignaturesForAddress publicKey signature_limit)
                             (getSignaturesForAddress env publicKey signature_limit) ;;
          txs <- promise_all
                   (map (fun sig =>
                           tx <- call (GetParsedTransaction (sig_signature sig))
                                      (getParsedTransaction env (sig_signature sig)) ;;
                           ret (row_of sig tx))
                        signatures) ;;
          setTransactions txs)
         (fun thrown => console_error "Error fetching transactions:" thrown))
      (setIsLoading false).

Definition run_fetchTransactions (env : Env) (walletAddress : string)
    (st : State) (storage : Storage) :=
  fetchTransactions env walletAddress (mkWorld st storage).

End TransactionHistory.

(* ===================================================================== *)
(** * src/lib/utils.ts *)
(* ===================================================================== *)

Module Utils.

(** [String.prototype.slice(start, end)] for integer arguments; a missing
    [end] is the length.  Negative positions count from the end. *)
Definition slice (s : string) (start : Z) (stop : option Z) : string :=
  let len := Z.of_nat (String.length s) in
  let clamp i := if i <? 0 then Z.max (len + i) 0 else Z.min i len in
  let from := clamp start in
  let to := match stop with Some e => clamp e | None => len end in
  substring (Z.to_nat from) (Z.to_nat (Z.max (to - from) 0)) s.

Definition or_default (default : Z) (arg : option Z) : Z :=
  match arg with
  | Some v => v
  | None => default
  end.

(** [truncateAddress(address, startChars = 4, endChars = 4)]; an omitted
    argument is [None]. *)
Definition truncateAddress (address : string) (startChars endChars : option Z) : string :=
  let startChars := or_default 4 startChars in
  let endChars := or_default 4 endChars in
  if isEmpty address then ""
  else if Z.of_nat (String.length address) <=? startChars + endChars then address
  else (slice address 0 (Some startChars) ++ "..." ++ slice address (- endChars) None)%string.

End Utils.

(* ===================================================================== *)
(** * The write operations, uniformly *)
(* ===================================================================== *)

Module Lifecycle.

(** A submitted form: the operation together with the state its handler
    captured. *)
Inductive Form :=
| Create (st : CreateToken.State)
| Mint (st : MintToken.State)
| Send (st : SendToken.State).

(** The fields each handler's guard inspects (the first statement of
    [createToken], [mintToken] and [sendToken]). *)
Definition required_fields (f : Form) : list string :=
  match f with
  | Create st => [CreateToken.tokenName st; CreateToken.tokenSymbol st; CreateToken.decimals st]
  | Mint st => [MintToken.tokenMintAddress st; MintToken.amount st]
  | Send st => [SendToken.selectedToken st; SendToken.recipientAddress st; SendToken.amount st]
  end.

(** The decimal amount field of the operations that have one. *)
Definition amount_field (f : Form) : option string :=
  match f with
  | Create _ => None
  | Mint st => Some (MintToken.amount st)
  | Send st => Some (SendToken.amount st)
  end.

(** The message of the error notification an operation falls back to. *)
Definition failure_message (f : Form) : string :=
  match f with
  | Create _ => CreateToken.failed_to_create
  | Mint _ => MintToken.failed_to_mint
  | Send _ => SendToken.failed_to_send
  end.

(** The form at rest: the same fields, nothing in flight. *)
Definition idle (f : Form) : Form :=
  match f with
  | Create st =>
      Create (CreateToken.mkState (CreateToken.tokenName st) (CreateToken.tokenSymbol st)
                (CreateToken.decimals st) false (CreateToken.createdTokenMint st))
  | Mint st =>
      Mint (MintToken.mkState (MintToken.tokenMintAddress st) (MintToken.amount st) false
              (MintToken.tokenDecimals st) (MintToken.recentTokens st))
  | Send st =>
      Send (SendToken.mkState (SendToken.recipientAddress st) (SendToken.selectedToken st)
              (SendToken.amount st) false (SendToken.tokenBalances st)
              (SendToken.isLoadingTokens st))
  end.

(** What one invocation leaves behind. *)
Record Outcome := mkOutcome {
  completion : Completion unit;
  form : Form;
  storage : Storage;
  trace : list Event
}.

Definition outcome_of {C} (wrap : C -> Form)
    (r : Completion unit * World C * list Event) : Outcome :=
  let '(c, w, t) := r in mkOutcome c (wrap (component w)) (localStorage w) t.

(** The user presses the operation's button. *)
Definition submit (env : Env) (walletAddress : string) (f : Form) (st : Storage) : Outcome :=
  match f with
  | Create s => outcome_of Create (CreateToken.run_createToken env walletAddress s st)
  | Mint s => outcome_of Mint (MintToken.run_mintToken env walletAddress s st)
  | Send s => outcome_of Send (SendToken.run_sendToken env walletAddress s st)
  end.

(** A transaction was handed to the ledger for broadcast. *)
Definition submitted (o : Outcome) : bool :=
  existsb is_submit (requests (trace o)).

(** "Parses as a non-negative number", on the double [parseFloat] gives. *)
Definition non_negative_number (x : number) : bool :=
  match x with
  | S754_nan => false
  | S754_zero _ => true
  | S754_infinity s => negb s
  | S754_finite s _ _ => negb s
  end.

End Lifecycle.

(* ===================================================================== *)
(** * Sample collaborators *)
(* ===================================================================== *)

Module Sample.

Definition wallet : string := "7xKXtg2CW87d97TXJSDpbD5jBkheTqA83TZRuJosgAsU".
Definition mintA : string := "So11111111111111111111111111111111111111112".
Definition mintB : string := "EPjFWdd5AufqSSqeM2qN1xzybapC8G4wEGGkZwyTDt1v".
Definition mintC : string := "Es9vMFrzaCERmJfrF4H2FYD4KCoNkY11McCe8BenwNYB".
Definition mintD : string := "mSoLzYCxHdYgdzU16g5QSh3i5K3z3KZK7ytfqcJm7So".
Definition mintE : string := "DezXAZ8z7PnrnRJjz3wXBoRgixCa6xjnB7YaB1pPB263".
Definition newMint : string := "4k3Dyjzvzp8eMZWUXbBCjEvwSkkk59S5iCNLY3QrkX6R".

(** The amounts an instruction can carry: the integers from 0 to 2^64 - 1. *)
Definition is_u64 (x : number) : bool :=
  match integer_value x with
  | Some z => (0 <=? z) && (z <? 2 ^ 64)
  | None => false
  end.

(** Every collaborator answers. *)
Definition cooperative : Env :=
  mkEnv true (fun _ => true) is_u64 newMint
        (fun _ mint owner => Normal ("ata-" ++ owner)%string)
        (Normal "blockhash-1")
        (fun _ => Normal "signed-bytes")
        (fun _ => Normal "signature-1")
        (fun _ => Normal tt)
        (fun _ _ _ _ mintAccount => Normal mintAccount)
        (fun mint => if String.eqb mint mintA then Normal 6%nat else Throw "account not found")
        (Normal Fulfilled)
        (fun _ _ => Normal [])
        (fun _ => Normal None)
        (fun _ _ => Normal tt).

(** The user declines every signature request in the wallet. *)
Definition declining : Env :=
  mkEnv true (fun _ => true) is_u64 newMint
        (fun _ mint owner => Normal ("ata-" ++ owner)%string)
        (Normal "blockhash-1")
        (fun _ => Throw "User rejected the request.")
        (fun _ => Normal "signature-1")
        (fun _ => Normal tt)
        (fun _ _ _ _ _ => Throw "User rejected the request.")
        (fun mint => if String.eqb mint mintA then Normal 6%nat else Throw "account not found")
        (Normal Fulfilled)
        (fun _ _ => Normal [])
        (fun _ => Normal None)
        (fun _ _ => Normal tt).

(** A provider whose [disconnect] throws at the call. *)
Definition throwing_disconnect : Env :=
  mkEnv true (fun _ => true) is_u64 newMint
        (fun _ mint owner => Normal ("ata-" ++ owner)%string)
        (Normal "blockhash-1")
        (fun _ => Normal "signed-bytes")
        (fun _ => Normal "signature-1")
        (fun _ => Normal tt)
        (fun _ _ _ _ mintAccount => Normal mintAccount)
        (fun _ => Throw "account not found")
        (Throw "disconnect is not a function")
        (fun _ _ => Normal [])
        (fun _ => Normal None)
        (fun _ _ => Normal tt).

(** A provider whose [disconnect] returns a promise that later rejects. *)
Definition rejecting_disconnect : Env :=
  mkEnv true (fun _ => true) is_u64 newMint
        (fun _ mint owner => Normal ("ata-" ++ owner)%string)
        (Normal "blockhash-1")
        (fun _ => Normal "signed-bytes")
        (fun _ => Normal "signature-1")
        (fun _ => Normal tt)
        (fun _ _ _ _ mintAccount => Normal mintAccount)
        (fun _ => Throw "account not found")
        (Normal (Rejected "provider is locked"))
        (fun _ _ => Normal [])
        (fun _ => Normal None)
        (fun _ _ => Normal tt).

(** A ledger with one past transaction of the session address: a token
    instruction, stored without metadata. *)
Definition token_transfer_without_meta : ParsedTransactionWithMeta :=
  mkParsedTransaction false
    [mkParsedInstruction (Some "TokenkegQfeZyiNwAJbNbGKPFXCWuBvf9Ss623VQ5DA")].

Definition old_ledger : Env :=
  mkEnv true (fun _ => true) is_u64 newMint
        (fun _ mint owner => Normal ("ata-" ++ owner)%string)
        (Normal "blockhash-1")
        (fun _ => Normal "signed-bytes")
        (fun _ => Normal "signature-1")
        (fun _ => Normal tt)
        (fun _ _ _ _ mintAccount => Normal mintAccount)
        (fun _ => Throw "account not found")
        (Normal Fulfilled)
        (fun _ _ => Normal [mkSignatureInfo "signature-0" 1000 None (Some 1700000000)])
        (fun _ => Normal (Some token_transfer_without_meta))
        (fun _ _ => Normal tt).

(** A ledger with three past transactions, newest first: a token transfer,
    a failed native transfer, and one for another program. *)
Definition history : list ConfirmedSignatureInfo :=
  [mkSignatureInfo "signature-3" 1003 None (Some 1700000300);
   mkSignatureInfo "signature-2" 1002 (Some (ErrorName "AccountInUse")) None;
   mkSignatureInfo "signature-1" 1001 None (Some 1700000100)].

Definition busy_ledger : Env :=
  mkEnv true (fun _ => true) is_u64 newMint
        (fun _ mint owner => Normal ("ata-" ++ owner)%string)
        (Normal "blockhash-1")
        (fun _ => Normal "signed-bytes")
        (fun _ => Normal "signature-1")
        (fun _ => Normal tt)
        (fun _ _ _ _ mintAccount => Normal mintAccount)
        (fun _ => Throw "account not found")
        (Normal Fulfilled)
        (fun _ limit => Normal (firstn limit history))
        (fun signature =>
           if String.eqb signature "signature-3" then
             Normal (Some (mkParsedTransaction true
               [mkParsedInstruction (Some "11111111111111111111111111111111");
                mkParsedInstruction (Some "TokenkegQfeZyiNwAJbNbGKPFXCWuBvf9Ss623VQ5DA")]))
           else if String.eqb signature "signature-2" then
             Normal (Some (mkParsedTransaction true
               [mkParsedInstruction (Some "11111111111111111111111111111111")]))
           else
             Normal (Some (mkParsedTransaction true
               [mkParsedInstruction None;
                mkParsedInstruction (Some "ComputeBudget111111111111111111111111111111")])))
        (fun _ _ => Normal tt).

End Sample.

(* ===================================================================== *)
(** * Observations used by the statements *)
(* ===================================================================== *)

(** The parts of what a run of a handler returns. *)
Definition state_of {C A} (r : Completion A * World C * list Event) : C :=
  component (snd (fst r)).
Definition storage_of {C A} (r : Completion A * World C * list Event) : Storage :=
  localStorage (snd (fst r)).
Definition trace_of {C A} (r : Completion A * World C * list Event) : list Event :=
  snd r.

(** [String.prototype.includes]. *)
Definition str_includes (text part : string) : bool :=
  match index 0 part text with
  | Some _ => true
  | None => false
  end.

(** The amounts of the instructions the wallet was asked to sign. *)
Definition instruction_amount (i : Instruction) : number :=
  match i with
  | MintTo _ _ _ a => a
  | Transfer _ _ _ a => a
  end.

Definition signed_amounts (t : list Event) : list number :=
  flat_map (fun r => match r with
                     | SignTransaction tx => map instruction_amount (instructions tx)
                     | _ => []
                     end) (requests t).

(** The instructions [fetchTransactions] gets to inspect: those of a
    transaction that was retrieved together with its metadata. *)
Definition inspected (tx : option ParsedTransactionWithMeta) (ixs : list ParsedInstruction) : Prop :=
  exists t, tx = Some t /\ tx_meta_present t = true /\ tx_instructions t = ixs.

(** Some instruction of [ixs] belongs to program [id]. *)
Definition names_program (id : string) (ixs : list ParsedInstruction) : Prop :=
  exists ix, In ix ixs /\ ix_programId ix = Some id.

(* ===================================================================== *)
(** * Amounts that are whole numbers *)
(* ===================================================================== *)

(** The mantissa [M] at exponent [e] is the positive integer [q]. *)
Definition holds_integer (M : positive) (e : Z) (q : Z) : Prop :=
  (0 <= e /\ q = Zpos M * 2 ^ e) \/ (e < 0 /\ Zpos M = q * 2 ^ (- e)).

(** The whole number a decimal literal denotes, when it denotes one: its
    fraction digits, if any, are zeros once the exponent is applied. *)
Definition whole_value (d : decimal) : option Z :=
  let m := Z.of_N (dec_digits d) in
  if 0 <=? dec_exp10 d then Some (cond_Zopp (dec_neg d) (m * 10 ^ dec_exp10 d))
  else if m mod 10 ^ (- dec_exp10 d) =? 0
       then Some (cond_Zopp (dec_neg d) (m / 10 ^ (- dec_exp10 d)))
       else None.

(* ===================================================================== *)
(** * The recency list at mount, and what the traces show of storage *)
(* ===================================================================== *)

Module MintView.
Import MintToken.

(** The effect that runs once when the component mounts (lines 26-35).
    The storage holds the lists as [mintToken] wrote them, so
    [JSON.parse] gives back the list that was stringified. *)
Definition loadRecentTokens : M State unit :=
  withRender (fun _ w =>
    match storage_get "recentTokens" (localStorage w) with
    | Some saved => setRecentTokens saved w
    | None => ret tt w
    end).

End MintView.

(** A write to localStorage. *)
Definition is_storage_write (r : Request) : bool :=
  match r with
  | StorageSetItem _ _ => true
  | _ => false
  end.

(** Some write to localStorage threw. *)
Definition storage_failed (t : list Event) : bool :=
  existsb (fun ev => match ev with
                     | Call (StorageSetItem _ _) (Threw _) => true
                     | _ => false
                     end) t.

(** The ledger confirmed a transaction. *)
Definition confirmed_on_ledger (t : list Event) : bool :=
  existsb (fun ev => match ev with
                     | Call (ConfirmTransaction _) Returned => true
                     | _ => false
                     end) t.

(** The writes to localStorage a run asked for. *)
Definition storage_writes (t : list Event) : list Request :=
  filter is_storage_write (requests t).

(* ===================================================================== *)
(** * What a read of the history does (transaction-history.tsx, lines 28-69) *)
(* ===================================================================== *)

Module HistoryView.
Import TransactionHistory.

(** The lookups [fetchTransactions] starts for a list of signatures, as the
    trace shows them. *)
Definition lookups (env : Env) (sigs : list ConfirmedSignatureInfo) : list Event :=
  map (fun sig => Call (GetParsedTransaction (sig_signature sig))
                       (status_of (getParsedTransaction env (sig_signature sig)))) sigs.

(** What [Promise.all] settles to over those lookups: the rows, or the
    error of the first signature whose lookup threw. *)
Fixpoint all_rows (env : Env) (sigs : list ConfirmedSignatureInfo) : Completion (list Row) :=
  match sigs with
  | [] => Normal []
  | sig :: rest =>
      match getParsedTransaction env (sig_signature sig), all_rows env rest with
      | Throw e, _ => Throw e
      | Normal _, Throw e => Throw e
      | Normal tx, Normal rows => Normal (row_of sig tx :: rows)
      end
  end.

Definition history_error : string := "Error fetching transactions:".

End HistoryView.

(* ===================================================================== *)
(** * The rest of the host: provider and connection beyond the lifecycle *)
(* ===================================================================== *)

(** A token account as [getParsedTokenAccountsByOwner] returns it:
    [account.data.parsed.info] with its mint and [tokenAmount.uiAmount]. *)
Record ParsedTokenAccount := mkParsedTokenAccount {
  account_mint : string;
  account_uiAmount : option number          (* null when the ledger gives none *)
}.

(** What the page reads from the provider and the connection besides the
    collaborators of [Env].  Calls answered from here leave no event in
    the trace. *)
Record Host := mkHost {
  (** [window.solana?.isPhantom] *)
  isPhantom : bool;
  (** [window.solana.isConnected] *)
  isConnected : bool;
  (** [window.solana.publicKey?.toString()] *)
  publicKey : option string;
  (** [(await solana.connect()).publicKey.toString()] *)
  connect : Completion string;
  (** [connection.getBalance(key)], in lamports *)
  getBalance : string -> Completion number;
  (** [(await connection.getParsedTokenAccountsByOwner(key, ...)).value] *)
  getParsedTokenAccountsByOwner : string -> Completion (list ParsedTokenAccount)
}.

(** Awaiting an answer of the host. *)
Definition await {C A} (answer : Completion A) : M C A := fun w => (answer, w, []).

(** [x > 0] for a balance that may be null. *)
Definition greater_than_zero (x : option number) : bool :=
  match x with
  | Some v => SFltb (S754_zero false) v
  | None => false
  end.

(** [x / y] of JS. *)
Definition number_div (x y : number) : number := SFdiv prec emax x y.

Definition LAMPORTS_PER_SOL : number := of_Z 1000000000.

(* ===================================================================== *)
(** * The send form's list of balances (send-token.tsx, lines 40-82) *)
(* ===================================================================== *)

Module SendView.
Import SendToken.

Definition setTokenBalances (v : list TokenBalance) : M State unit :=
  setState (fun s => mkState (recipientAddress s) (selectedToken s) (amount s) (isLoading s)
                             v (isLoadingTokens s)).
Definition setIsLoadingTokens (v : bool) : M State unit :=
  setState (fun s => mkState (recipientAddress s) (selectedToken s) (amount s) (isLoading s)
                             (tokenBalances s) v).

Definition failed_to_load : string := "Failed to load your tokens".

(** One turn of the loop over the accounts (lines 52-70). *)
Definition collectBalance (env : Env) (account : ParsedTokenAccount)
    (balances : list TokenBalance) : M State (list TokenBalance) :=
  let mintAddress := account_mint account in
  match account_uiAmount account with
  | Some tokenBalance =>
      if greater_than_zero (Some tokenBalance) then
        try_catch
          (key <- newPublicKey env mintAddress ;;
           decimals <- call (GetMint key) (getMint env key) ;;
           ret (balances ++ [mkTokenBalance mintAddress tokenBalance decimals]))
          (fun thrown =>
             console_error ("Error fetching mint info for " ++ mintAddress ++ ":")%string thrown ;;
             ret balances)
      else ret balances
  | None => ret balances
  end.

Fixpoint collectBalances (env : Env) (accounts : list ParsedTokenAccount)
    (balances : list TokenBalance) : M State (list TokenBalance) :=
  match accounts with
  | [] => ret balances
  | account :: rest =>
      balances' <- collectBalance env account balances ;;
      collectBalances env rest balances'
  end.

(** [fetchTokenAccounts], the effect that loads the balances. *)
Definition fetchTokenAccounts (env : Env) (host : Host) (props_walletAddress : string)
  : M State unit :=
  if isEmpty props_walletAddress then ret tt
  else
    setIsLoadingTokens true ;;
    try_finally
      (try_catch
         (key <- newPublicKey env props_walletAddress ;;
          accounts <- await (getParsedTokenAccountsByOwner host key) ;;
          balances <- collectBalances env accounts [] ;;
          setTokenBalances balances)
         (fun thrown =>
            console_error "Error fetching token accounts:" thrown ;;
            showNotification error failed_to_load))
      (setIsLoadingTokens false).

(** The entries the loop keeps for one account. *)
Definition listed (env : Env) (account : ParsedTokenAccount) : list TokenBalance :=
  match account_uiAmount account with
  | Some tokenBalance =>
      if greater_than_zero (Some tokenBalance) && isPublicKey env (account_mint account)
      then match getMint env (account_mint account) with
           | Normal decimals => [mkTokenBalance (account_mint account) tokenBalance decimals]
           | Throw _ => []
           end
      else []
  | None => []
  end.

End SendView.

(* ===================================================================== *)
(** * Connecting (wallet-connect.tsx, lines 22-72) *)
(* ===================================================================== *)

Module WalletPanel.

(** The component's own state, the session it shares with the page, and the
    windows it has asked the browser to open ([window.open], in order). *)
Record State := mkState {
  session : WalletConnect.Session;
  isLoading : bool;
  isPhantomInstalled : bool;
  openedWindows : list (string * string)
}.

Definition setWalletAddress (v : option string) : M State unit :=
  setState (fun s => mkState (WalletConnect.mkSession v (WalletConnect.solBalance (session s)))
                             (isLoading s) (isPhantomInstalled s) (openedWindows s)).
Definition setIsLoading (v : bool) : M State unit :=
  setState (fun s => mkState (session s) v (isPhantomInstalled s) (openedWindows s)).
Definition setIsPhantomInstalled (v : bool) : M State unit :=
  setState (fun s => mkState (session s) (isLoading s) v (openedWindows s)).
Definition window_open (url target : string) : M State unit :=
  setState (fun s => mkState (session s) (isLoading s) (isPhantomInstalled s)
                             (openedWindows s ++ [(url, target)])).

Definition install_phantom : string := "Please install Phantom wallet".
Definition wallet_connected : string := "Wallet connected successfully".
Definition failed_to_connect : string := "Failed to connect wallet".
Definition phantom_site : string * string := ("https://phantom.app/", "_blank").

(** [checkPhantomWallet] (lines 27-39), run when the component mounts and
    once more half a second later. *)
Definition checkPhantomWallet (env : Env) (host : Host) : M State unit :=
  if (walletInjected env && isPhantom host)%bool then
    setIsPhantomInstalled true ;;
    if isConnected host then
      match publicKey host with
      | Some address => if isEmpty address then ret tt else setWalletAddress (Some address)
      | None => ret tt
      end
    else ret tt
  else ret tt.

(** [connectWallet] (lines 48-72); [render] is the state its closure
    captured. *)
Definition connectWallet (env : Env) (host : Host) (render : State) : M State unit :=
  try_finally
    (try_catch
       (setIsLoading true ;;
        if negb (isPhantomInstalled render) then
          window_open (fst phantom_site) (snd phantom_site) ;;
          showNotification error install_phantom
        else if walletInjected env then
          address <- await (connect host) ;;
          setWalletAddress (Some address) ;;
          showNotification success wallet_connected
        else ret tt)
       (fun thrown =>
          console_error "Error connecting wallet:" thrown ;;
          showNotification error failed_to_connect))
    (setIsLoading false).

End WalletPanel.

(* ===================================================================== *)
(** * The page (the Home component, lines 15-51) *)
(* ===================================================================== *)

Module Home.

(** The [notification] state: [{ type, message }], [type] being [null]
    when nothing is shown. *)
Record Notification := mkNotification {
  type : option NotificationType;
  message : string
}.

Definition nothing : Notification := mkNotification None "".

(** The page at an instant: its state, the time in milliseconds, and the
    due times of the timeouts [showNotification] has registered and that
    have not fired yet.  Every such timeout runs the same callback,
    [setNotification({ type: null, message: "" })]. *)
Record Page := mkPage {
  session : WalletConnect.Session;
  notification : Notification;
  now : N;
  timeouts : list N
}.

Definition initial : Page :=
  mkPage (WalletConnect.mkSession None (S754_zero false)) nothing 0%N [].

(** [showNotification] (lines 45-51). *)
Definition showNotification (t : NotificationType) (m : string) (p : Page) : Page :=
  mkPage (session p) (mkNotification (Some t) m) (now p)
         (timeouts p ++ [(now p + 5000)%N]).

(** Time passing: the timeouts that come due fire, each clearing the
    notification, and leave the list. *)
Definition due (at_ : N) (t : N) : bool := (t <=? at_)%N.

Definition elapse (d : N) (p : Page) : Page :=
  let at_ := (now p + d)%N in
  mkPage (session p)
         (if existsb (due at_) (timeouts p) then nothing else notification p)
         at_
         (filter (fun t => negb (due at_ t)) (timeouts p)).

(** What happens on the page, as far as notifications go. *)
Inductive Happening :=
| Show (t : NotificationType) (m : string)
| Wait (d : N).

Definition happen (p : Page) (h : Happening) : Page :=
  match h with
  | Show t m => showNotification t m p
  | Wait d => elapse d p
  end.

(** What the page renders of it: the alert appears under
    [notification.type && ...], with the type and the message. *)
Definition shown (p : Page) : option (NotificationType * string) :=
  match type (notification p) with
  | Some t => Some (t, message (notification p))
  | None => None
  end.

Definition after (hs : list Happening) (p : Page) : Page := fold_left happen hs p.

(** The balance effect's [getBalance] (lines 28-37), run at mount and then
    every 15 seconds.  The component state is the session. *)
Definition setSolBalance (v : number) : M WalletConnect.Session unit :=
  setState (fun s => WalletConnect.mkSession (WalletConnect.walletAddress s) v).

Definition getBalance (env : Env) (host : Host) (render : WalletConnect.Session)
  : M WalletConnect.Session unit :=
  match WalletConnect.walletAddress render with
  | Some walletAddress =>
      if isEmpty walletAddress then ret tt
      else
        try_catch
          (key <- newPublicKey env walletAddress ;;
           balance <- await (getBalance host key) ;;
           setSolBalance (number_div balance LAMPORTS_PER_SOL))
          (fun thrown => console_error "Error fetching balance:" thrown)
  | None => ret tt
  end.

(** Every pending timeout is due within five seconds, and a notification
    on screen has its timeout pending. *)
Definition timely (p : Page) : Prop :=
  Forall (fun t => (now p < t <= now p + 5000)%N) (timeouts p)
  /\ (type (notification p) <> None -> timeouts p <> []).

End Home.

(* ===================================================================== *)
(** * Buttons and labels *)
(* ===================================================================== *)

Module Buttons.
Import Lifecycle.

(** The [disabled] attribute of each form's submit button (create-token.tsx
    line 163, mint-token.tsx line 179, send-token.tsx line 248). *)
Definition disabled (f : Form) : bool :=
  match f with
  | Create s =>
      CreateToken.isLoading s || isEmpty (CreateToken.tokenName s)
      || isEmpty (CreateToken.tokenSymbol s) || isEmpty (CreateToken.decimals s)
  | Mint s =>
      MintToken.isLoading s || isEmpty (MintToken.tokenMintAddress s)
      || isEmpty (MintToken.amount s)
  | Send s =>
      SendToken.isLoading s || isEmpty (SendToken.selectedToken s)
      || isEmpty (SendToken.recipientAddress s) || isEmpty (SendToken.amount s)
  end.

(** The message of the operation's success notification. *)
Definition success_message (f : Form) : string :=
  match f with
  | Create _ => CreateToken.token_created
  | Mint s => MintToken.successfully_minted (MintToken.amount s)
  | Send s => SendToken.successfully_sent (SendToken.amount s)
  end.

(** The short label of a mint address on the recent-token buttons
    (mint-token.tsx line 156) and in the token select (send-token.tsx
    line 204): [token.slice(0, 4) + "..." + token.slice(-4)]. *)
Definition short_label (token : string) : string :=
  (Utils.slice token 0 (Some 4) ++ "..." ++ Utils.slice token (-4) None)%string.

End Buttons.

(* ===================================================================== *)
(** * Failures the trace shows as no call *)
(* ===================================================================== *)




(* ===================================================================== *)
(** * More sample collaborators *)
(* ===================================================================== *)

Module Scenes.

(** The browser refuses every write to localStorage; everyone else
    answers. *)
Definition full_storage : Env :=
  mkEnv true (fun _ => true) Sample.is_u64 Sample.newMint
        (fun _ mint owner => Normal ("ata-" ++ owner)%string)
        (Normal "blockhash-1")
        (fun _ => Normal "signed-bytes")
        (fun _ => Normal "signature-1")
        (fun _ => Normal tt)
        (fun _ _ _ _ mintAccount => Normal mintAccount)
        (fun mint => if String.eqb mint Sample.mintA then Normal 6%nat
                     else Throw "account not found")
        (Normal Fulfilled)
        (fun _ _ => Normal [])
        (fun _ => Normal None)
        (fun _ _ => Throw "QuotaExceededError").




Definition mint_form : MintToken.State :=
  MintToken.mkState Sample.mintA "1" false 6 [Sample.mintB].

Definition send_form : SendToken.State :=
  SendToken.mkState Sample.wallet Sample.mintA "3.25" false
    [SendToken.mkTokenBalance Sample.mintA (of_Z 10) 2] false.

(** The token accounts of the sample wallet: one with a balance, an empty
    one, one whose mint cannot be read, and one without a ui amount. *)
Definition accounts : list ParsedTokenAccount :=
  [mkParsedTokenAccount Sample.mintA (Some (of_Z 10));
   mkParsedTokenAccount Sample.mintB (Some (S754_zero false));
   mkParsedTokenAccount Sample.mintC (Some (of_Z 3));
   mkParsedTokenAccount Sample.mintD None].

(** A connected Phantom provider and a reachable ledger. *)
Definition phantom : Host :=
  mkHost true true (Some Sample.wallet) (Normal Sample.wallet)
         (fun _ => Normal (of_Z 2500000000))
         (fun _ => Normal accounts).

(** A provider that declines and a ledger that cannot be reached. *)
Definition unreachable : Host :=
  mkHost true false None (Throw "User rejected the request.")
         (fun _ => Throw "failed to fetch")
         (fun _ => Throw "failed to fetch").

End Scenes.

(* ===================================================================== *)
(** * Proof support *)
(* ===================================================================== *)

(** Unfolds the monad down to pairs and lists. *)
Ltac unfold_monad :=
  cbv beta iota zeta delta
    [bind ret throw emit setState withRender call try_catch try_finally showNotification
     console_error newPublicKey requireWallet localStorage_setItem status_of
     createMintToInstruction createTransferInstruction
     component localStorage
     MintToken.setTokenMintAddress MintToken.setAmount MintToken.setIsLoading
     MintToken.setTokenDecimals MintToken.setRecentTokens
     SendToken.setRecipientAddress SendToken.setAmount SendToken.setIsLoading
     CreateToken.setIsLoading CreateToken.setCreatedTokenMint
     WalletConnect.setWalletAddress
     TransactionHistory.setTransactions TransactionHistory.setIsLoading].

(** Splits on the scrutinee of the innermost pending [match] or [if]. *)
Ltac split_match :=
  match goal with
  | |- context [match ?x with _ => _ end] =>
      lazymatch x with
      | context [match _ with _ => _ end] => fail
      | _ => destruct x eqn:?
      end
  end.

Ltac unfold_submit :=
  unfold Lifecycle.submit, Lifecycle.outcome_of,
    CreateToken.run_createToken, CreateToken.createToken,
    MintToken.run_mintToken, MintToken.mintToken,
    SendToken.run_sendToken, SendToken.sendToken, withRender;
  cbn [component
       CreateToken.tokenName CreateToken.tokenSymbol CreateToken.decimals
       CreateToken.isLoading CreateToken.createdTokenMint
       MintToken.tokenMintAddress MintToken.amount MintToken.isLoading
       MintToken.recentTokens MintToken.tokenDecimals
       SendToken.selectedToken SendToken.recipientAddress SendToken.amount
       SendToken.isLoading SendToken.tokenBalances SendToken.isLoadingTokens].

Ltac run_cases := repeat (unfold_monad; cbn [fst snd app]; try split_match).

(** Unfolds the monad and the setters of the wallet panel. *)
Ltac unfold_panel :=
  cbv beta iota zeta delta
    [bind ret throw emit setState withRender call await try_catch try_finally
     showNotification console_error component localStorage
     WalletPanel.setWalletAddress WalletPanel.setIsLoading
     WalletPanel.setIsPhantomInstalled WalletPanel.window_open].

(** Settles the cases of an outcome table: each hypothesis names the
    answers of the case, most of them contradicting the case at hand. *)
Ltac settle_cases :=
  try congruence;
  try solve [ intros;
              repeat match goal with
                     | H : Some _ = Some _ |- _ => injection H as H; subst
                     | H : _ \/ _ |- _ => destruct H
                     | H : exists _, _ |- _ => destruct H
                     end;
              try discriminate; try congruence; eauto ].

Section ValidationGuard.
Import Lifecycle.

Variable env : Env.
Variable walletAddress : string.
Variable st : Storage.

Lemma createToken_guard (s : CreateToken.State) :
  existsb isEmpty (required_fields (Create s)) = true ->
  submit env walletAddress (Create s) st
  = mkOutcome (Normal tt) (Create s) st [Notify error CreateToken.fill_in_all_fields].
Proof.
  destruct s as [name symbol dec loading created].
  cbn [required_fields existsb CreateToken.tokenName CreateToken.tokenSymbol
       CreateToken.decimals].
  rewrite orb_false_r, orb_assoc. intros Hempty.
  unfold submit, CreateToken.run_createToken, withRender, CreateToken.createToken.
cbn [component].
  cbn [CreateToken.tokenName CreateToken.tokenSymbol CreateToken.decimals].
  rewrite Hempty. reflexivity.
Qed.

Lemma mintToken_guard (s : MintToken.State) :
  existsb isEmpty (required_fields (Mint s)) = true ->
  submit env walletAddress (Mint s) st
  = mkOutcome (Normal tt) (Mint s) st [Notify error MintToken.fill_in_all_fields].
Proof.
  destruct s as [address amt loading dec recent].
  cbn [required_fields existsb MintToken.tokenMintAddress MintToken.amount].
  rewrite orb_false_r. intros Hempty.
  unfold submit, MintToken.run_mintToken, withRender, MintToken.mintToken.
cbn [component].
  cbn [MintToken.tokenMintAddress MintToken.amount].
  rewrite Hempty. reflexivity.
Qed.

Lemma sendToken_guard (s : SendToken.State) :
  existsb isEmpty (required_fields (Send s)) = true ->
  submit env walletAddress (Send s) st
  = mkOutcome (Normal tt) (Send s) st [Notify error SendToken.fill_in_all_fields].
Proof.
  destruct s as [recipient token amt loading balances loadingTokens].
  cbn [required_fields existsb SendToken.selectedToken SendToken.recipientAddress
       SendToken.amount].
  rewrite orb_false_r, orb_assoc. intros Hempty.
  unfold submit, SendToken.run_sendToken, withRender, SendToken.sendToken.
cbn [component].
  cbn [SendToken.selectedToken SendToken.recipientAddress SendToken.amount].
  rewrite Hempty. reflexivity.
Qed.
End ValidationGuard.

(* ===================================================================== *)
(** * The validation guard (transition Idle -> Validating) *)
(* ===================================================================== *)

Section Validation.
Import Lifecycle.

(** C2 (as the code has it): for Create, Mint and Send alike, an invocation
    with an empty required field stops at the guard: it completes with the
    single error notification "Please fill in all fields", sends nothing to
    a collaborator, and leaves the component state and localStorage exactly
    as they were.  The guard tests emptiness only; it does not parse the
    amount. *)
Theorem empty_field_stops_at_validation
    (env : Env) (walletAddress : string) (f : Form) (st : Storage) :
  existsb isEmpty (required_fields f) = true ->
  submit env walletAddress f st
  = mkOutcome (Normal tt) f st [Notify error "Please fill in all fields"].
Proof.
  destruct f as [s | s | s]; intros Hempty.
  - now apply createToken_guard.
  - now apply mintToken_guard.
  - now apply sendToken_guard.
Qed.

Lemma empty_field_stops_at_validation_witness :
  let f := Send (SendToken.mkState Sample.wallet Sample.mintA "" false [] false) in
  existsb isEmpty (required_fields f) = true
  /\ submit Sample.cooperative Sample.wallet f []
     = mkOutcome (Normal tt) f [] [Notify error "Please fill in all fields"].
Proof.
  split.
  - reflexivity.
  - apply (empty_field_stops_at_validation Sample.cooperative Sample.wallet
             (Send (SendToken.mkState Sample.wallet Sample.mintA "" false [] false)) []).
    reflexivity.
Defined.

(** C2 fails as stated: the amount "-5" is no non-negative number, and yet
    the Mint invocation passes the guard and goes on to Building, where its
    first step asks the ledger for the associated token account; the
    message of the guard is never shown. *)
Lemma negative_amount_passes_validation :
  let f := Mint (MintToken.mkState Sample.mintA "-5" false 9 []) in
  let o := submit Sample.cooperative Sample.wallet f [] in
  amount_field f = Some "-5"
  /\ non_negative_number (parseFloat "-5") = false
  /\ hd_error (trace o)
     = Some (Call (GetOrCreateAssociatedTokenAccount Sample.wallet Sample.mintA Sample.wallet)
                  Returned)
  /\ ~ In (Notify error "Please fill in all fields") (trace o).
Proof.
  vm_compute. repeat split.
  intros Hin. repeat (destruct Hin as [Hin | Hin]; [discriminate Hin |]). exact Hin.
Qed.
End Validation.

(* ===================================================================== *)
(** * Failures after validation *)
(* ===================================================================== *)

Section Failures.
Import Lifecycle.

Variable env : Env.
Variable walletAddress : string.
Variable st : Storage.

(** C4: when the wallet's sign-transaction request fails, the invocation
    ends at rest with every field as it was ([idle]), localStorage and the
    recency list untouched, and no transaction handed to the ledger for
    broadcast.  (Create sends no sign request of its own: [createMint]
    signs inside the library.) *)
Theorem signing_rejected_returns_to_idle
    (f : Form) (tx : Transaction) (reason : string) :
  In (Call (SignTransaction tx) (Threw reason)) (trace (submit env walletAddress f st)) ->
  form (submit env walletAddress f st) = idle f
  /\ storage (submit env walletAddress f st) = st
  /\ submitted (submit env walletAddress f st) = false.
Proof.
  unfold submitted.
  destruct f as [s | s | s]; destruct s; unfold_submit; run_cases;
    cbn; intros Hin; repeat split;
    repeat (destruct Hin as [Hin | Hin]; try discriminate Hin); try contradiction.
Qed.

End Failures.

Lemma signing_rejected_returns_to_idle_witness :
  let f := Lifecycle.Mint (MintToken.mkState Sample.mintA "1" false 9 [Sample.mintB]) in
  let tx := mkTransaction
              [MintTo Sample.mintA ("ata-" ++ Sample.wallet)%string Sample.wallet
                      (of_Z 1000000000)]
              (Some "blockhash-1") (Some Sample.wallet) in
  let o := Lifecycle.submit Sample.declining Sample.wallet f [] in
  In (Call (SignTransaction tx) (Threw "User rejected the request.")) (Lifecycle.trace o)
  /\ Lifecycle.form o = Lifecycle.idle f
  /\ Lifecycle.storage o = []
  /\ Lifecycle.submitted o = false.
Proof.
  assert (Hin : In (Call (SignTransaction
                  (mkTransaction
                     [MintTo Sample.mintA ("ata-" ++ Sample.wallet)%string Sample.wallet
                             (of_Z 1000000000)]
                     (Some "blockhash-1") (Some Sample.wallet)))
                (Threw "User rejected the request."))
             (Lifecycle.trace
                (Lifecycle.submit Sample.declining Sample.wallet
                   (Lifecycle.Mint (MintToken.mkState Sample.mintA "1" false 9 [Sample.mintB]))
                   []))).
  { vm_compute. right. right. left. reflexivity. }
  split.
  - exact Hin.
  - exact (signing_rejected_returns_to_idle Sample.declining Sample.wallet [] _ _ _ Hin).
Defined.


(* ===================================================================== *)
(** * Amount scaling *)
(* ===================================================================== *)

(** The model against the machine: the kernel's binary64 product of the
    same operands is the product the model computes. *)
Example products_agree_with_primitive_floats :
  Prim2SF (201 / 100 * 1000000000)%float = mul (parseFloat "2.01") (Math_pow10 9)
  /\ Prim2SF (29 / 100 * 100)%float = mul (parseFloat "0.29") (Math_pow10 2)
  /\ Prim2SF (25 / 10 * 1000000)%float = mul (parseFloat "2.5") (Math_pow10 6).
Proof. vm_compute. repeat split. Qed.

(** The end-to-end Mint scenario of the specification: "2.5" of a
    6-decimals mint is scaled to 2500000 base units, the exact floor. *)
Example scaleAmount_mint_scenario :
  integer_value (scaleAmount "2.5" 6) = Some 2500000
  /\ spec_base_units "2.5" 6 = Some 2500000.
Proof. vm_compute. split; reflexivity. Qed.

(** The end-to-end Send scenario of the specification: "3.25" of a
    2-decimals token is scaled to 325 base units, the exact floor. *)
Example scaleAmount_send_scenario :
  integer_value (scaleAmount "3.25" 2) = Some 325
  /\ spec_base_units "3.25" 2 = Some 325.
Proof. vm_compute. split; reflexivity. Qed.

(** C1 at a failing input.  The double nearest to 2.01 lies below 2.01, and
    its product with 10^9 rounds to 2009999999.9999998: minting "2.01" of a
    9-decimals token puts 2009999999 base units in the instruction, one less
    than floor(2.01 * 10^9) = 2010000000.  Likewise sending "0.29" of a
    2-decimals token transfers 28 base units, not 29. *)
Theorem scaling_falls_one_base_unit_short :
  let minted :=
    Lifecycle.submit Sample.cooperative Sample.wallet
      (Lifecycle.Mint (MintToken.mkState Sample.mintA "2.01" false 9 [])) [] in
  let sent :=
    Lifecycle.submit Sample.cooperative Sample.wallet
      (Lifecycle.Send
         (SendToken.mkState Sample.mintB Sample.mintA "0.29" false
            [SendToken.mkTokenBalance Sample.mintA (of_Z 10) 2] false)) [] in
  map integer_value (signed_amounts (Lifecycle.trace minted)) = [Some 2009999999]
  /\ spec_base_units "2.01" 9 = Some 2010000000
  /\ map integer_value (signed_amounts (Lifecycle.trace sent)) = [Some 28]
  /\ spec_base_units "0.29" 2 = Some 29.
Proof. vm_compute. repeat split. Qed.

(* ===================================================================== *)
(** * The decimals of the mint form *)
(* ===================================================================== *)

Section Decimals.
Import MintToken.

Variable env : Env.

(** X3: when a mint address of at least 32 characters is entered and its
    metadata lookup succeeds, the form's decimals become those the mint
    reports. *)
Lemma fetchTokenDecimals_found (address : string) (d : nat) (w : World State) :
  (32 <= String.length address)%nat ->
  isPublicKey env address = true ->
  getMint env address = Normal d ->
  tokenDecimals (state_of (enterMintAddress env address w)) = d.
Proof.
  intros Hlen Hkey Hmint.
  unfold enterMintAddress, fetchTokenDecimals.
  assert (Hguard : (isEmpty address || (String.length address <? 32)%nat)%bool = false).
  { apply orb_false_iff. split.
    - destruct address; [cbn in Hlen; lia | reflexivity].
    - apply Nat.ltb_ge. exact Hlen. }
  rewrite Hguard. unfold_monad. rewrite Hkey. unfold_monad. rewrite Hmint.
  reflexivity.
Qed.

(** X4: every other case leaves [tokenDecimals] as it was, whatever it
    was: an address shorter than 32 characters, a rejected key, a lookup
    that throws. *)
Lemma fetchTokenDecimals_kept (address : string) (w : World State) :
  ((String.length address <? 32)%nat = true
   \/ isPublicKey env address = false
   \/ exists e, getMint env address = Throw e) ->
  tokenDecimals (state_of (enterMintAddress env address w)) = tokenDecimals (component w).
Proof.
  intros Hcase.
  unfold enterMintAddress, fetchTokenDecimals.
  destruct (isEmpty address || (String.length address <? 32)%nat)%bool eqn:Hguard.
  - reflexivity.
  - apply orb_false_iff in Hguard. destruct Hguard as [_ Hlen].
    destruct Hcase as [Hshort | [Hkey | [e Hthrow]]].
    + congruence.
    + unfold_monad. rewrite Hkey. reflexivity.
    + unfold_monad. destruct (isPublicKey env address); [|reflexivity].
      unfold_monad. rewrite Hthrow. reflexivity.
Qed.
End Decimals.

Lemma fetchTokenDecimals_found_witness :
  MintToken.tokenDecimals
    (state_of (MintToken.enterMintAddress Sample.cooperative Sample.mintA
                 (mkWorld MintToken.initial [])))
  = 6%nat.
Proof.
  apply (fetchTokenDecimals_found Sample.cooperative Sample.mintA 6
           (mkWorld MintToken.initial [])).
  - apply Nat.leb_le. reflexivity.
  - reflexivity.
  - reflexivity.
Defined.

Lemma fetchTokenDecimals_kept_witness :
  MintToken.tokenDecimals
    (state_of (MintToken.enterMintAddress Sample.cooperative Sample.mintB
                 (mkWorld MintToken.initial [])))
  = 9%nat.
Proof.
  apply (fetchTokenDecimals_kept Sample.cooperative Sample.mintB
           (mkWorld MintToken.initial [])).
  right. right. exists "account not found". reflexivity.
Defined.

(** C5 at a failing input.  The user enters a mint whose metadata say 6
    decimals, then replaces it by a mint whose lookup fails: the form keeps
    6, not the default 9, and the next mint of "1" is scaled by 10^6.  The
    same happens while the second address is still being typed. *)
Theorem failed_lookup_keeps_previous_decimals :
  let session steps := steps (mkWorld MintToken.initial []) in
  let after_failure :=
    session (MintToken.enterMintAddress Sample.cooperative Sample.mintA ;;
             MintToken.enterMintAddress Sample.cooperative Sample.mintB) in
  let while_typing :=
    session (MintToken.enterMintAddress Sample.cooperative Sample.mintA ;;
             MintToken.enterMintAddress Sample.cooperative "EPjFWdd5") in
  let minted :=
    session (MintToken.enterMintAddress Sample.cooperative Sample.mintA ;;
             MintToken.enterMintAddress Sample.cooperative Sample.mintB ;;
             MintToken.enterAmount "1" ;;
             withRender (MintToken.mintToken Sample.cooperative Sample.wallet)) in
  getMint Sample.cooperative Sample.mintB = Throw "account not found"
  /\ MintToken.tokenMintAddress (state_of after_failure) = Sample.mintB
  /\ MintToken.tokenDecimals (state_of after_failure) = 6%nat
  /\ MintToken.tokenDecimals (state_of while_typing) = 6%nat
  /\ map integer_value (signed_amounts (trace_of minted)) = [Some 1000000]
  /\ notifications (trace_of minted) = [(success, "Successfully minted 1 tokens!")].
Proof. vm_compute. repeat split. Qed.

(* ===================================================================== *)
(** * The recency list *)
(* ===================================================================== *)

Lemma includes_In (x : string) (l : list string) :
  includes x l = true <-> In x l.
Proof.
  unfold includes. rewrite existsb_exists. split.
  - intros [y [Hy Heq]]. apply String.eqb_eq in Heq. now subst.
  - intros Hin. exists x. split; [assumption | apply String.eqb_refl].
Qed.

Lemma updatedTokens_full (a : string) (l : list string) :
  List.length l = 5%nat -> MintToken.updatedTokens a l = a :: removelast l.
Proof.
  intros Hlen. unfold MintToken.updatedTokens.
  do 5 (destruct l as [| ? l]; [discriminate Hlen |]).
  destruct l; [reflexivity | discriminate Hlen].
Qed.

Lemma updatedTokens_full_length (a : string) (l : list string) :
  List.length l = 5%nat -> List.length (MintToken.updatedTokens a l) = 5%nat.
Proof.
  intros Hlen. unfold MintToken.updatedTokens.
  do 5 (destruct l as [| ? l]; [discriminate Hlen |]). reflexivity.
Qed.

Lemma updatedTokens_bound (a : string) (l : list string) :
  (List.length (MintToken.updatedTokens a l) <= 5)%nat.
Proof. unfold MintToken.updatedTokens. apply firstn_le_length. Qed.

(** What a confirmed mint does to the list: the address goes in front, and
    the list is cut to five, unless the address is in the list already. *)
Lemma recentTokens_after_mint
    (env : Env) (walletAddress : string) (s : MintToken.State) (st : Storage) :
  In (Notify success (MintToken.successfully_minted (MintToken.amount s)))
     (trace_of (MintToken.run_mintToken env walletAddress s st)) ->
  MintToken.recentTokens (state_of (MintToken.run_mintToken env walletAddress s st))
  = if includes (MintToken.tokenMintAddress s) (MintToken.recentTokens s)
    then MintToken.recentTokens s
    else MintToken.updatedTokens (MintToken.tokenMintAddress s) (MintToken.recentTokens s).
Proof.
  unfold trace_of, state_of.
  destruct s; unfold_submit; run_cases; cbn; intros Hin;
    repeat (destruct Hin as [Hin | Hin]; try discriminate Hin);
    try contradiction;
    try match goal with H : negb _ = _ |- _ => discriminate H end;
    reflexivity.
Qed.

Lemma storage_after_mint
    (env : Env) (walletAddress : string) (s : MintToken.State) (st : Storage) :
  In (Notify success (MintToken.successfully_minted (MintToken.amount s)))
     (trace_of (MintToken.run_mintToken env walletAddress s st)) ->
  storage_of (MintToken.run_mintToken env walletAddress s st)
  = if includes (MintToken.tokenMintAddress s) (MintToken.recentTokens s)
    then st
    else storage_set "recentTokens"
           (MintToken.updatedTokens (MintToken.tokenMintAddress s) (MintToken.recentTokens s))
           st.
Proof.
  unfold trace_of, storage_of.
  destruct s; unfold_submit; run_cases; cbn; intros Hin;
    repeat (destruct Hin as [Hin | Hin]; try discriminate Hin);
    try contradiction;
    try match goal with H : negb _ = _ |- _ => discriminate H end;
    reflexivity.
Qed.

Lemma storage_get_set (key : string) (value : list string) (st : Storage) :
  storage_get key (storage_set key value st) = Some value.
Proof.
  unfold storage_get, storage_set. cbn [find fst].
  now rewrite String.eqb_refl.
Qed.

(** C3 (as the code has it): after a successful mint, a list of five
    entries that does not hold the minted address gets it in front and
    loses its last (oldest) entry, the others keeping their order, and the
    new list is what localStorage holds under "recentTokens"; a list that
    holds the address already is left exactly as it is (the address keeps
    its place), and so is localStorage; and a list of at most five stays at
    most five. *)
Theorem recency_list_after_successful_mint
    (env : Env) (walletAddress : string) (s : MintToken.State) (st : Storage) :
  In (Notify success (MintToken.successfully_minted (MintToken.amount s)))
     (trace_of (MintToken.run_mintToken env walletAddress s st)) ->
  let address := MintToken.tokenMintAddress s in
  let before := MintToken.recentTokens s in
  let after :=
    MintToken.recentTokens (state_of (MintToken.run_mintToken env walletAddress s st)) in
  (~ In address before -> List.length before = 5%nat ->
     after = address :: removelast before
     /\ List.length after = 5%nat
     /\ storage_get "recentTokens"
          (storage_of (MintToken.run_mintToken env walletAddress s st)) = Some after)
  /\ (In address before ->
        after = before
        /\ storage_of (MintToken.run_mintToken env walletAddress s st) = st)
  /\ (List.length before <= 5 -> List.length after <= 5)%nat.
Proof.
  intros Hok address before after.
  assert (Hafter := recentTokens_after_mint env walletAddress s st Hok).
  assert (Hstored := storage_after_mint env walletAddress s st Hok).
  fold address before after in Hafter. fold address before in Hstored.
  split; [| split].
  - intros Hnew Hfull.
    destruct (includes address before) eqn:Hinc.
    { apply includes_In in Hinc. contradiction. }
    rewrite Hstored, Hafter. split; [| split].
    + now apply updatedTokens_full.
    + now apply updatedTokens_full_length.
    + apply storage_get_set.
  - intros Hin. apply includes_In in Hin. rewrite Hafter, Hstored, Hin. split; reflexivity.
  - intros Hlen. rewrite Hafter.
    destruct (includes address before); [assumption | apply updatedTokens_bound].
Qed.

Lemma recency_list_after_successful_mint_witness :
  let s := MintToken.mkState Sample.newMint "2.5" false 6
             [Sample.mintA; Sample.mintB; Sample.mintC; Sample.mintD; Sample.mintE] in
  let run := MintToken.run_mintToken Sample.cooperative Sample.wallet s [] in
  In (Notify success (MintToken.successfully_minted "2.5")) (trace_of run)
  /\ MintToken.recentTokens (state_of run)
     = [Sample.newMint; Sample.mintA; Sample.mintB; Sample.mintC; Sample.mintD].
Proof.
  assert (Hok : In (Notify success (MintToken.successfully_minted "2.5"))
                  (trace_of (MintToken.run_mintToken Sample.cooperative Sample.wallet
                     (MintToken.mkState Sample.newMint "2.5" false 6
                        [Sample.mintA; Sample.mintB; Sample.mintC; Sample.mintD; Sample.mintE])
                     []))).
  { vm_compute. do 6 right. left. reflexivity. }
  split.
  - exact Hok.
  - refine (proj1 (proj1 (recency_list_after_successful_mint
                            Sample.cooperative Sample.wallet
                            (MintToken.mkState Sample.newMint "2.5" false 6
                               [Sample.mintA; Sample.mintB; Sample.mintC;
                                Sample.mintD; Sample.mintE])
                            [] Hok) _ _)).
    + vm_compute. intros H. repeat (destruct H as [H | H]; [discriminate H |]). exact H.
    + reflexivity.
Defined.

(** C3 fails as stated for an address that is in the list already: after a
    successful mint of the third entry, the list is not reordered, so that
    entry is not in front. *)
Lemma duplicate_is_not_moved_to_front :
  let before := [Sample.mintA; Sample.mintB; Sample.mintC; Sample.mintD; Sample.mintE] in
  let s := MintToken.mkState Sample.mintC "1" false 6 before in
  let run := MintToken.run_mintToken Sample.cooperative Sample.wallet s [] in
  notifications (trace_of run) = [(success, "Successfully minted 1 tokens!")]
  /\ MintToken.recentTokens (state_of run) = before
  /\ hd_error (MintToken.recentTokens (state_of run)) <> Some Sample.mintC.
Proof. vm_compute. repeat split. discriminate. Qed.

(* ===================================================================== *)
(** * Disconnecting *)
(* ===================================================================== *)

Section Disconnecting.
Import WalletConnect.

Variable env : Env.
Variable session : Session.
Variable st : Storage.

(** C8 (as the code has it): [disconnectWallet] calls the provider's
    [disconnect] without awaiting it.  When that call does not throw (no
    provider injected, or the call returns a promise, whatever the promise
    settles to), the session address is reset to absent, a success is
    notified and nothing is logged.  When the call throws, the error is
    logged and surfaced as the notification "Failed to disconnect wallet",
    and the session is left as it was. *)
Theorem disconnect_clears_unless_the_call_throws :
  let run := run_disconnectWallet env session st in
  ((walletInjected env = false \/ exists settles, disconnect env = Normal settles) ->
     walletAddress (state_of run) = None
     /\ solBalance (state_of run) = solBalance session
     /\ notifications (trace_of run) = [(success, wallet_disconnected)]
     /\ has_failure (trace_of run) = false
     /\ forall label detail, ~ In (ConsoleError label detail) (trace_of run))
  /\ (forall thrown, walletInjected env = true -> disconnect env = Throw thrown ->
        state_of run = session
        /\ trace_of run = [Call Disconnect (Threw thrown);
                           ConsoleError "Error disconnecting wallet:" thrown;
                           Notify error failed_to_disconnect]).
Proof.
  unfold run_disconnectWallet, disconnectWallet, state_of, trace_of.
  split.
  - intros [Habsent | [settles Hreturns]].
    + unfold_monad. rewrite Habsent. cbn. repeat split.
      intros label detail [H | []]. discriminate H.
    + unfold_monad. rewrite Hreturns. destruct (walletInjected env); cbn; repeat split.
      * intros label detail [H | [H | []]]; discriminate H.
      * intros label detail [H | []]. discriminate H.
  - intros thrown Hinjected Hthrows.
    unfold_monad. rewrite Hinjected, Hthrows. destruct session. cbn. split; reflexivity.
Qed.
End Disconnecting.

Lemma disconnect_clears_unless_the_call_throws_witness :
  let session := WalletConnect.mkSession (Some Sample.wallet) (of_Z 2) in
  let run := WalletConnect.run_disconnectWallet Sample.cooperative session [] in
  disconnect Sample.cooperative = Normal Fulfilled
  /\ WalletConnect.walletAddress (state_of run) = None
  /\ notifications (trace_of run) = [(success, "Wallet disconnected")].
Proof.
  destruct (proj1 (disconnect_clears_unless_the_call_throws Sample.cooperative
                     (WalletConnect.mkSession (Some Sample.wallet) (of_Z 2)) [])
                  (or_intror (ex_intro _ Fulfilled eq_refl)))
    as [Hcleared [_ [Hnotified _]]].
  split; [reflexivity | split; [exact Hcleared | exact Hnotified]].
Defined.

(** C8 fails as stated when the provider's [disconnect] throws: the session
    address is still there afterwards, and the failure is surfaced as an
    error notification. *)
Lemma throwing_disconnect_keeps_the_session :
  let session := WalletConnect.mkSession (Some Sample.wallet) (of_Z 2) in
  let run := WalletConnect.run_disconnectWallet Sample.throwing_disconnect session [] in
  disconnect Sample.throwing_disconnect = Throw "disconnect is not a function"
  /\ WalletConnect.walletAddress (state_of run) = Some Sample.wallet
  /\ notifications (trace_of run) = [(error, "Failed to disconnect wallet")].
Proof. vm_compute. repeat split. Qed.

(** A promise that rejects after the call has returned goes unnoticed: the
    session is cleared, success is notified, nothing is logged. *)
Example rejecting_disconnect_is_not_logged :
  let session := WalletConnect.mkSession (Some Sample.wallet) (of_Z 2) in
  let run := WalletConnect.run_disconnectWallet Sample.rejecting_disconnect session [] in
  disconnect Sample.rejecting_disconnect = Normal (Rejected "provider is locked")
  /\ WalletConnect.walletAddress (state_of run) = None
  /\ trace_of run = [Call Disconnect Returned; Notify success "Wallet disconnected"].
Proof. vm_compute. repeat split. Qed.

(* ===================================================================== *)
(** * Creating a mint *)
(* ===================================================================== *)

(** A decimal digit, as the decimals field spells it, parses to itself. *)
Lemma parseInt_digit (d : Z) :
  0 <= d <= 9 ->
  parseInt (String (ascii_of_N (48 + Z.to_N d)) "") = of_Z d.
Proof.
  intros Hd.
  assert (Hcases : d = 0 \/ d = 1 \/ d = 2 \/ d = 3 \/ d = 4 \/ d = 5 \/ d = 6
                   \/ d = 7 \/ d = 8 \/ d = 9) by lia.
  repeat (destruct Hcases as [-> | Hcases]; [vm_compute; reflexivity |]).
  subst d. vm_compute. reflexivity.
Qed.

(** C9 (as the code has it): with every field filled and the decimals field
    reading [d], [createToken] sends exactly one [createMint] request, with
    precision [d] and the session address as payer, mint authority and
    freeze authority; when the ledger confirms, the new mint's address is
    stored in [createdTokenMint], and the success notification is the fixed
    text "Token created successfully!". *)
Theorem createToken_request_and_notification
    (env : Env) (walletAddress : string) (s : CreateToken.State) (st : Storage)
    (d : Z) (mint : string) :
  existsb isEmpty (Lifecycle.required_fields (Lifecycle.Create s)) = false ->
  parseInt (CreateToken.decimals s) = of_Z d ->
  isPublicKey env walletAddress = true ->
  createMint env walletAddress walletAddress walletAddress (of_Z d) (generatedMint env)
  = Normal mint ->
  CreateToken.run_createToken env walletAddress s st
  = (Normal tt,
     mkWorld (CreateToken.mkState (CreateToken.tokenName s) (CreateToken.tokenSymbol s)
                (CreateToken.decimals s) false (Some mint)) st,
     [Call (CreateMint walletAddress walletAddress walletAddress (of_Z d) (generatedMint env))
           Returned;
      Notify success "Token created successfully!"]).
Proof.
  destruct s as [name symbol dec loading created].
  cbn [Lifecycle.required_fields existsb CreateToken.tokenName CreateToken.tokenSymbol
       CreateToken.decimals].
  rewrite orb_false_r, orb_assoc. intros Hfilled Hdec Hkey Hmint.
  unfold CreateToken.run_createToken, withRender, CreateToken.createToken.
  cbn [component].
  cbn [CreateToken.tokenName CreateToken.tokenSymbol CreateToken.decimals].
  rewrite Hfilled, Hdec. unfold_monad. rewrite Hkey. unfold_monad. rewrite Hmint.
  reflexivity.
Qed.

Lemma createToken_request_and_notification_witness :
  let s := CreateToken.mkState "Demo" "DMO" "9" false None in
  CreateToken.run_createToken Sample.cooperative Sample.wallet s []
  = (Normal tt,
     mkWorld (CreateToken.mkState "Demo" "DMO" "9" false (Some Sample.newMint)) [],
     [Call (CreateMint Sample.wallet Sample.wallet Sample.wallet (of_Z 9) Sample.newMint)
           Returned;
      Notify success "Token created successfully!"]).
Proof.
  apply (createToken_request_and_notification Sample.cooperative Sample.wallet
           (CreateToken.mkState "Demo" "DMO" "9" false None) [] 9 Sample.newMint);
    reflexivity.
Defined.

(** C9 fails as stated: in the end-to-end scenario (name "Demo", symbol
    "DMO", decimals "9") the success message does not contain the address
    of the mint that was created. *)
Lemma success_message_omits_the_mint_address :
  let s := CreateToken.mkState "Demo" "DMO" "9" false None in
  let run := CreateToken.run_createToken Sample.cooperative Sample.wallet s [] in
  CreateToken.createdTokenMint (state_of run) = Some Sample.newMint
  /\ notifications (trace_of run) = [(success, "Token created successfully!")]
  /\ str_includes "Token created successfully!" Sample.newMint = false.
Proof. vm_compute. repeat split. Qed.

(* ===================================================================== *)
(** * Transaction history *)
(* ===================================================================== *)

Section History.
Import TransactionHistory.

Lemma some_programId_names (id : string) (ixs : list ParsedInstruction) :
  some_programId id ixs = true <-> names_program id ixs.
Proof.
  unfold some_programId, names_program. rewrite existsb_exists.
  split; intros [ix [Hin Hid]]; exists ix; split; try assumption.
  - destruct (ix_programId ix) as [p |]; [| discriminate Hid].
    apply String.eqb_eq in Hid. now subst.
  - rewrite Hid. apply String.eqb_refl.
Qed.

(** The type of a row, in the words of the specification. *)
Lemma transaction_type_spec (tx : option ParsedTransactionWithMeta) :
  (forall ixs, inspected tx ixs -> names_program TOKEN_PROGRAM ixs ->
     transaction_type tx = "Token")
  /\ (forall ixs, inspected tx ixs -> ~ names_program TOKEN_PROGRAM ixs ->
        names_program SYSTEM_PROGRAM ixs -> transaction_type tx = "SOL Transfer")
  /\ (forall ixs, inspected tx ixs -> ~ names_program TOKEN_PROGRAM ixs ->
        ~ names_program SYSTEM_PROGRAM ixs -> transaction_type tx = "Unknown")
  /\ ((forall ixs, ~ inspected tx ixs) -> transaction_type tx = "Unknown").
Proof.
  unfold inspected, transaction_type. repeat split.
  - intros ixs [t [-> [Hmeta <-]]] Htoken.
    apply some_programId_names in Htoken. now rewrite Hmeta, Htoken.
  - intros ixs [t [-> [Hmeta <-]]] Hno Hsystem.
    apply some_programId_names in Hsystem. rewrite Hmeta, Hsystem.
    destruct (some_programId TOKEN_PROGRAM (tx_instructions t)) eqn:Htoken; [| reflexivity].
    apply some_programId_names in Htoken. contradiction.
  - intros ixs [t [-> [Hmeta <-]]] Hno Hnos. rewrite Hmeta.
    destruct (some_programId TOKEN_PROGRAM (tx_instructions t)) eqn:Htoken.
    { apply some_programId_names in Htoken. contradiction. }
    destruct (some_programId SYSTEM_PROGRAM (tx_instructions t)) eqn:Hsystem.
    { apply some_programId_names in Hsystem. contradiction. }
    reflexivity.
  - intros Hnone. destruct tx as [t |]; [| reflexivity].
    destruct (tx_meta_present t) eqn:Hmeta; [| reflexivity].
    exfalso. apply (Hnone (tx_instructions t)). exists t. repeat split. exact Hmeta.
Qed.

Variable env : Env.

(** When every lookup answers, [Promise.all] yields one row per signature,
    in the order of the signatures, and changes no state. *)
Lemma promise_all_rows (sigs : list ConfirmedSignatureInfo) (w : World State) :
  (forall sig, In sig sigs ->
     exists tx, getParsedTransaction env (sig_signature sig) = Normal tx) ->
  exists t,
    promise_all
      (map (fun sig =>
              tx <- call (GetParsedTransaction (sig_signature sig))
                         (getParsedTransaction env (sig_signature sig)) ;;
              ret (row_of sig tx))
           sigs) w
    = (Normal (map (fun sig => row_of sig (parsed env sig)) sigs), w, t).
Proof.
  revert w. induction sigs as [| sig sigs IH]; intros w Hall.
  - exists []. reflexivity.
  - destruct (Hall sig (or_introl eq_refl)) as [tx Htx].
    destruct (IH w (fun sig' Hin => Hall sig' (or_intror Hin))) as [t Hrest].
    cbn [map promise_all]. unfold bind at 1, call at 1, ret at 1.
    rewrite Htx. cbv beta iota zeta. rewrite Hrest.
    eexists. cbn [map].
    replace (parsed env sig) with tx by (unfold parsed; now rewrite Htx).
    reflexivity.
Qed.

(** The rows [fetchTransactions] stores when the ledger answers. *)
Lemma fetchTransactions_rows
    (walletAddress : string) (s : State) (st : Storage)
    (sigs : list ConfirmedSignatureInfo) :
  isEmpty walletAddress = false ->
  isPublicKey env walletAddress = true ->
  getSignaturesForAddress env walletAddress signature_limit = Normal sigs ->
  (forall sig, In sig sigs ->
     exists tx, getParsedTransaction env (sig_signature sig) = Normal tx) ->
  transactions (state_of (run_fetchTransactions env walletAddress s st))
  = map (fun sig => row_of sig (parsed env sig)) sigs.
Proof.
  intros Hwallet Hkey Hsigs Hall.
  unfold run_fetchTransactions, fetchTransactions, state_of.
  rewrite Hwallet.
  unfold bind at 1. unfold setIsLoading at 1, setState at 1.
  cbv beta iota zeta. cbn [component localStorage].
  unfold try_finally, try_catch.
  unfold bind at 1. unfold newPublicKey. rewrite Hkey. unfold ret at 1.
  cbv beta iota zeta.
  unfold bind at 1. unfold call at 1. rewrite Hsigs. cbv beta iota zeta.
  unfold bind at 1.
  match goal with
  | |- context [promise_all ?tasks ?w] =>
      destruct (promise_all_rows sigs w Hall) as [t Hrows]; rewrite Hrows
  end.
  reflexivity.
Qed.

(** C6 (as the code has it): when the ledger answers with at most [limit]
    signatures, the history holds one row per signature, in the ledger's
    order, at most 10.  A row's type is "Token" when the transaction was
    retrieved with its metadata and one of its instructions belongs to the
    token program; otherwise "SOL Transfer" when it was so retrieved and
    one belongs to the system program; "Unknown" in every other case, which
    includes a transaction that was not retrieved or has no metadata.  A
    row's status is failed exactly when the signature's error field is
    truthy, and confirmed otherwise. *)
Theorem history_rows_are_classified
    (walletAddress : string) (s : State) (st : Storage)
    (sigs : list ConfirmedSignatureInfo) :
  isEmpty walletAddress = false ->
  isPublicKey env walletAddress = true ->
  getSignaturesForAddress env walletAddress signature_limit = Normal sigs ->
  (List.length sigs <= signature_limit)%nat ->
  (forall sig, In sig sigs ->
     exists tx, getParsedTransaction env (sig_signature sig) = Normal tx) ->
  let rows := transactions (state_of (run_fetchTransactions env walletAddress s st)) in
  (List.length rows <= 10)%nat
  /\ map signature rows = map sig_signature sigs
  /\ Forall2
       (fun sig row =>
          forall tx, getParsedTransaction env (sig_signature sig) = Normal tx ->
            (forall ixs, inspected tx ixs -> names_program TOKEN_PROGRAM ixs ->
               type row = "Token")
            /\ (forall ixs, inspected tx ixs -> ~ names_program TOKEN_PROGRAM ixs ->
                  names_program SYSTEM_PROGRAM ixs -> type row = "SOL Transfer")
            /\ (forall ixs, inspected tx ixs -> ~ names_program TOKEN_PROGRAM ixs ->
                  ~ names_program SYSTEM_PROGRAM ixs -> type row = "Unknown")
            /\ ((forall ixs, ~ inspected tx ixs) -> type row = "Unknown")
            /\ (status row = failed <-> err_truthy (sig_err sig) = true)
            /\ (status row = confirmed <-> err_truthy (sig_err sig) = false))
       sigs rows.
Proof.
  intros Hwallet Hkey Hsigs Hlimit Hall rows.
  assert (Hrows : rows = map (fun sig => row_of sig (parsed env sig)) sigs)
    by now apply fetchTransactions_rows.
  rewrite Hrows. clear Hrows rows. repeat split.
  - rewrite length_map. exact Hlimit.
  - rewrite map_map. reflexivity.
  - clear Hsigs Hlimit Hall. induction sigs as [| sig sigs' IH]; constructor; [| exact IH].
    intros tx Htx. unfold parsed. rewrite Htx. cbn [type status row_of].
    destruct (transaction_type_spec tx) as [Htoken [Hsystem [Hother Hnone]]].
    repeat split; try assumption;
      destruct (err_truthy (sig_err sig)); congruence.
Qed.
End History.

Lemma history_rows_are_classified_witness :
  let rows :=
    TransactionHistory.transactions
      (state_of (TransactionHistory.run_fetchTransactions Sample.busy_ledger Sample.wallet
                   (TransactionHistory.mkState [] false) [])) in
  map TransactionHistory.signature rows = ["signature-3"; "signature-2"; "signature-1"]
  /\ map TransactionHistory.type rows = ["Token"; "SOL Transfer"; "Unknown"]
  /\ map TransactionHistory.status rows
     = [TransactionHistory.confirmed; TransactionHistory.failed; TransactionHistory.confirmed].
Proof.
  assert (Hall : forall sig, In sig Sample.history ->
            exists tx, getParsedTransaction Sample.busy_ledger (sig_signature sig) = Normal tx).
  { intros sig [<- | [<- | [<- | []]]]; eexists; reflexivity. }
  destruct (history_rows_are_classified Sample.busy_ledger Sample.wallet
              (TransactionHistory.mkState [] false) [] Sample.history
              eq_refl eq_refl eq_refl (proj1 (Nat.leb_le 3 10) eq_refl) Hall)
    as [_ [Hsignatures _]].
  split; [exact Hsignatures | split; reflexivity].
Defined.

(** C6 fails as stated for a transaction the ledger returns without
    metadata: its instructions include the token program, and its row is
    typed "Unknown". *)
Lemma token_transaction_without_meta_is_unknown :
  let rows :=
    TransactionHistory.transactions
      (state_of (TransactionHistory.run_fetchTransactions Sample.old_ledger Sample.wallet
                   (TransactionHistory.mkState [] false) [])) in
  getParsedTransaction Sample.old_ledger "signature-0"
  = Normal (Some Sample.token_transfer_without_meta)
  /\ TransactionHistory.some_programId TransactionHistory.TOKEN_PROGRAM
       (tx_instructions Sample.token_transfer_without_meta) = true
  /\ map TransactionHistory.signature rows = ["signature-0"]
  /\ map TransactionHistory.type rows = ["Unknown"].
Proof. vm_compute. repeat split. Qed.

(* ===================================================================== *)
(** * truncateAddress *)
(* ===================================================================== *)

Section Truncation.
Import Utils.

Lemma substring_length (s : string) (n m : nat) :
  (n + m <= String.length s)%nat -> String.length (substring n m s) = m.
Proof.
  revert n m. induction s as [| c s IH]; intros n m Hle; cbn in Hle.
  - assert (n = 0%nat) by lia. assert (m = 0%nat) by lia. subst. reflexivity.
  - destruct n as [| n]; destruct m as [| m]; cbn.
    + reflexivity.
    + f_equal. apply (IH 0%nat m). lia.
    + apply (IH n 0%nat). lia.
    + apply (IH n (S m)). lia.
Qed.

Lemma append_length (s t : string) :
  String.length (s ++ t)%string = (String.length s + String.length t)%nat.
Proof. induction s as [| c s IH]; cbn; [reflexivity | now rewrite IH]. Qed.

Lemma substring_all (s : string) : substring 0 (String.length s) s = s.
Proof. induction s as [| c s IH]; cbn; [reflexivity | now rewrite IH]. Qed.

(** An empty address gives the empty string. *)
Lemma truncateAddress_empty (startChars endChars : option Z) :
  truncateAddress "" startChars endChars = "".
Proof. reflexivity. Qed.

(** [truncateAddress] unfolded, for arguments that count characters. *)
Lemma truncateAddress_cases (address : string) (startChars endChars : Z) :
  0 <= startChars -> 1 <= endChars ->
  let len := String.length address in
  truncateAddress address (Some startChars) (Some endChars)
  = if Z.of_nat len <=? startChars + endChars then address
    else (substring 0 (Z.to_nat startChars) address ++ "..."
          ++ substring (len - Z.to_nat endChars) (Z.to_nat endChars) address)%string.
Proof.
  intros Hstart Hend len. subst len. unfold truncateAddress, or_default.
  destruct (isEmpty address) eqn:Hempty.
  { destruct address; [| discriminate Hempty]. cbn [String.length Z.of_nat].
    destruct (0 <=? startChars + endChars) eqn:Hle; [reflexivity |].
    apply Z.leb_gt in Hle. lia. }
  destruct (Z.of_nat (String.length address) <=? startChars + endChars) eqn:Hle;
      [reflexivity |].
  apply Z.leb_gt in Hle. unfold slice.
  replace (0 <? 0) with false by reflexivity.
  replace (startChars <? 0) with false by (symmetry; apply Z.ltb_ge; lia).
  replace (- endChars <? 0) with true by (symmetry; apply Z.ltb_lt; lia).
  rewrite (Z.min_l 0) by lia. rewrite (Z.min_l startChars) by lia.
  rewrite (Z.max_l (Z.of_nat (String.length address) + - endChars)) by lia.
  rewrite (Z.max_l (startChars - 0)) by lia.
  rewrite (Z.max_l (Z.of_nat (String.length address)
                    - (Z.of_nat (String.length address) + - endChars))) by lia.
  replace (Z.to_nat 0) with 0%nat by reflexivity.
  replace (startChars - 0) with startChars by lia.
  replace (Z.of_nat (String.length address)
           - (Z.of_nat (String.length address) + - endChars)) with endChars by lia.
  replace (Z.to_nat (Z.of_nat (String.length address) + - endChars))
    with (String.length address - Z.to_nat endChars)%nat by lia.
  reflexivity.
Qed.

(** X5: with at least one character asked for at the end, the result is as
    the function's name says: the address itself when it is short enough,
    else its first [startChars] characters, three dots, and its last
    [endChars]. *)
Lemma truncateAddress_shape (address : string) (startChars endChars : Z) :
  0 <= startChars -> 1 <= endChars ->
  truncateAddress address (Some startChars) (Some endChars)
  = if Z.of_nat (String.length address) <=? startChars + endChars then address
    else (substring 0 (Z.to_nat startChars) address ++ "..."
          ++ substring (String.length address - Z.to_nat endChars)
               (Z.to_nat endChars) address)%string.
Proof. intros Hstart Hend. now apply truncateAddress_cases. Qed.

(** X6: with the default arguments no result is longer than the address or
    than eleven characters. *)
Lemma truncateAddress_default_length (address : string) :
  (String.length (truncateAddress address None None)
   <= Nat.max (String.length address) 11)%nat.
Proof.
  assert (Hshape := truncateAddress_cases address 4 4 ltac:(lia) ltac:(lia)).
  change (truncateAddress address (Some 4) (Some 4))
    with (truncateAddress address None None) in Hshape.
  cbv zeta in Hshape. rewrite Hshape.
  destruct (Z.of_nat (String.length address) <=? 4 + 4) eqn:Hle.
  - lia.
  - apply Z.leb_gt in Hle.
    rewrite !append_length, !substring_length by (cbn; lia).
    cbn. lia.
Qed.
End Truncation.

Lemma truncateAddress_shape_witness :
  Utils.truncateAddress Sample.wallet (Some 4) (Some 4) = "7xKX...gAsU".
Proof.
  rewrite (truncateAddress_shape Sample.wallet 4 4); [reflexivity | lia | lia].
Defined.

(** C10 at a failing input.  With [endChars = 0] the tail is
    [address.slice(-0)], which is [address.slice(0)]: the whole address
    follows the dots, where its last 0 characters, none, were asked for. *)
Theorem truncateAddress_endChars_zero :
  Utils.truncateAddress "abcdefghij" (Some 4) (Some 0) = "abcd...abcdefghij"
  /\ Utils.slice "abcdefghij" (- 0) None = "abcdefghij"
  /\ (String.length "abcdefghij"
      < String.length (Utils.truncateAddress "abcdefghij" (Some 4%Z) (Some 0%Z)))%nat.
Proof. vm_compute. repeat split. lia. Qed.

(* ===================================================================== *)
(** * Exact scaling of whole amounts *)
(* ===================================================================== *)

(** ** Shifting and rounding without loss *)

Lemma iter_pos_nat {A} (f : A -> A) (p : positive) (x : A) :
  iter_pos f p x = Nat.iter (Pos.to_nat p) f x.
Proof.
  revert x. induction p as [p IH | p IH |]; intros x; cbn [iter_pos].
  - rewrite !IH, Pos2Nat.inj_xI, <- Nat.iter_succ_r.
    replace (S (2 * Pos.to_nat p))%nat with (Pos.to_nat p + S (Pos.to_nat p))%nat by lia.
    now rewrite Nat.iter_add.
  - rewrite !IH, Pos2Nat.inj_xO.
    replace (2 * Pos.to_nat p)%nat with (Pos.to_nat p + Pos.to_nat p)%nat by lia.
    now rewrite Nat.iter_add.
  - reflexivity.
Qed.

Lemma shr_1_even (m : Z) :
  0 <= m ->
  shr_1 (Build_shr_record (2 * m) false false) = Build_shr_record m false false.
Proof. intros Hm. destruct m as [| p | p]; [reflexivity | reflexivity | lia]. Qed.

Lemma shr_exact (n : nat) (m : Z) :
  0 <= m ->
  Nat.iter n shr_1 (Build_shr_record (m * 2 ^ Z.of_nat n) false false)
  = Build_shr_record m false false.
Proof.
  revert m. induction n as [| n IH]; intros m Hm.
  - cbn. now rewrite Z.mul_1_r.
  - rewrite Nat.iter_succ_r.
    replace (m * 2 ^ Z.of_nat (S n)) with (2 * (m * 2 ^ Z.of_nat n))
      by (rewrite Nat2Z.inj_succ, Z.pow_succ_r by lia; ring).
    rewrite shr_1_even by (apply Z.mul_nonneg_nonneg; [assumption | apply Z.pow_nonneg; lia]).
    now apply IH.
Qed.

Lemma digits2_pos_size (m : positive) : digits2_pos m = Pos.size m.
Proof. induction m as [m IH | m IH |]; cbn; now rewrite ?IH. Qed.

Lemma digits_bounds (m : positive) :
  2 ^ (Zpos (digits2_pos m) - 1) <= Zpos m < 2 ^ Zpos (digits2_pos m).
Proof.
  rewrite digits2_pos_size. split.
  - pose proof (Pos.size_le m) as H.
    apply Pos2Z.pos_le_pos in H. rewrite Pos2Z.inj_pow in H.
    change (Zpos m~0) with (2 * Zpos m) in H.
    replace (Zpos (Pos.size m)) with (Z.succ (Zpos (Pos.size m) - 1)) in H by lia.
    rewrite Z.pow_succ_r in H by lia. lia.
  - pose proof (Pos.size_gt m) as H.
    apply Pos2Z.pos_lt_pos in H. now rewrite Pos2Z.inj_pow in H.
Qed.

Lemma digits_unique (m : positive) (k : Z) :
  2 ^ (k - 1) <= Zpos m < 2 ^ k -> Zpos (digits2_pos m) = k.
Proof.
  intros [Hlo Hhi]. pose proof (digits_bounds m) as [Dlo Dhi].
  assert (0 < k).
  { destruct (Z.ltb_spec 0 k); [assumption |].
    rewrite Z.pow_neg_r in Hlo by lia.
    assert (2 ^ k <= 2 ^ 0) by (apply Z.pow_le_mono_r; lia). simpl in *. lia. }
  destruct (Z.lt_trichotomy (Zpos (digits2_pos m)) k) as [Hlt | [Heq | Hgt]].
  - assert (2 ^ Zpos (digits2_pos m) <= 2 ^ (k - 1)) by (apply Z.pow_le_mono_r; lia). lia.
  - assumption.
  - assert (2 ^ k <= 2 ^ (Zpos (digits2_pos m) - 1)) by (apply Z.pow_le_mono_r; lia). lia.
Qed.

Lemma digits_quotient (M : positive) (n : Z) :
  0 <= n -> (2 ^ n | Zpos M) ->
  exists M' : positive,
    Zpos M = Zpos M' * 2 ^ n /\ Zpos (digits2_pos M') = Zpos (digits2_pos M) - n.
Proof.
  intros Hn [q Hq].
  assert (Hpow : 0 < 2 ^ n) by (apply Z.pow_pos_nonneg; lia).
  assert (Hqpos : 0 < q) by nia.
  destruct q as [| M' |]; try lia.
  exists M'. split; [assumption |].
  apply digits_unique.
  pose proof (digits_bounds M) as [Dlo Dhi]. rewrite Hq in Dlo, Dhi.
  set (d := Zpos (digits2_pos M)) in *.
  assert (Hnd : n < d).
  { destruct (Z.ltb_spec n d); [assumption |].
    assert (2 ^ d <= 2 ^ n) by (apply Z.pow_le_mono_r; lia). nia. }
  replace d with ((d - n) + n) in Dhi by lia.
  replace (d - 1) with ((d - n - 1) + n) in Dlo by lia.
  rewrite Z.pow_add_r in Dlo, Dhi by lia.
  split.
  - apply (Z.mul_le_mono_pos_r _ _ (2 ^ n)); assumption.
  - apply (Z.mul_lt_mono_pos_r (2 ^ n)); assumption.
Qed.

Lemma shr_fexp_exact (M : positive) (e : Z) :
  let d := Zpos (digits2_pos M) in
  let n := Z.max (d - 53) 0 in
  -1074 <= d + e - 53 ->
  (2 ^ n | Zpos M) ->
  shr_fexp prec emax (Zpos M) e loc_Exact
  = (Build_shr_record (Zpos M / 2 ^ n) false false, e + n).
Proof.
  intros d n Hrange Hdiv.
  unfold shr_fexp, fexp, emin, prec, emax. cbn [Zdigits2 shr_record_of_loc].
  fold d.
  replace (Z.max (d + e - 53) (3 - 1024 - 53) - e) with (d - 53) by lia.
  destruct (d - 53) as [| p | p] eqn:Hshift; cbn [shr].
  - replace n with 0 by lia. now rewrite Z.div_1_r, Z.add_0_r.
  - assert (Hn : n = Zpos p) by lia. rewrite Hn in *.
    destruct Hdiv as [q Hq]. rewrite Hq.
    assert (0 < 2 ^ Zpos p) by (apply Z.pow_pos_nonneg; lia).
    rewrite Z.div_mul by lia.
    rewrite iter_pos_nat. rewrite <- (positive_nat_Z p) at 1.
    rewrite shr_exact by nia. reflexivity.
  - replace n with 0 by lia. now rewrite Z.div_1_r, Z.add_0_r.
Qed.

(** A mantissa whose bits beyond the 53rd are zeros is rounded to itself:
    the result is the same value, with those zeros shifted out. *)
Lemma round_exact (s : bool) (M : positive) (e : Z) :
  let d := Zpos (digits2_pos M) in
  let n := Z.max (d - 53) 0 in
  -1074 <= d + e - 53 ->
  (2 ^ n | Zpos M) ->
  e + n <= 971 ->
  exists M' : positive,
    Zpos M = Zpos M' * 2 ^ n
    /\ binary_round_aux prec emax s (Zpos M) e loc_Exact = S754_finite s M' (e + n).
Proof.
  intros d n Hrange Hdiv Hmax.
  destruct (digits_quotient M n ltac:(lia) Hdiv) as [M' [HM Hd']].
  exists M'. split; [assumption |].
  unfold binary_round_aux.
  rewrite (shr_fexp_exact M e Hrange Hdiv). fold d n.
  assert (Hpow : 0 < 2 ^ n) by (apply Z.pow_pos_nonneg; lia).
  rewrite HM, Z.div_mul by lia.
  cbn [shr_m loc_of_shr_record round_nearest_even].
  rewrite (shr_fexp_exact M' (e + n)).
  - fold d in Hd'. replace (Z.max (Zpos (digits2_pos M') - 53) 0) with 0 by lia.
    rewrite Z.div_1_r, Z.add_0_r. cbn [shr_m].
    unfold emax, prec.
    destruct (e + n <=? 1024 - 53) eqn:Hle; [reflexivity |].
    apply Z.leb_gt in Hle. lia.
  - fold d in Hd'. lia.
  - fold d in Hd'. replace (Z.max (Zpos (digits2_pos M') - 53) 0) with 0 by lia.
    apply Z.divide_1_l.
Qed.

(** ** Doubles that are integers *)

Lemma holds_integer_pos (M : positive) (e q : Z) : holds_integer M e q -> 0 < q.
Proof.
  intros [[He ->] | [He HM]].
  - assert (0 < 2 ^ e) by (apply Z.pow_pos_nonneg; lia). nia.
  - assert (0 < 2 ^ (- e)) by (apply Z.pow_pos_nonneg; lia). nia.
Qed.

Lemma integer_value_finite (s : bool) (M : positive) (e q : Z) :
  holds_integer M e q -> integer_value (S754_finite s M e) = Some (cond_Zopp s q).
Proof.
  intros [[He ->] | [He HM]]; unfold integer_value.
  - apply Z.leb_le in He. now rewrite He.
  - assert (Hpow : 0 < 2 ^ (- e)) by (apply Z.pow_pos_nonneg; lia).
    replace (0 <=? e) with false by (symmetry; apply Z.leb_gt; lia).
    rewrite HM, Z.mod_mul, Z.div_mul by lia. reflexivity.
Qed.

Lemma integer_value_holds (s : bool) (M : positive) (e a : Z) :
  integer_value (S754_finite s M e) = Some a ->
  exists q, a = cond_Zopp s q /\ holds_integer M e q.
Proof.
  unfold integer_value. destruct (0 <=? e) eqn:He.
  - intros [= <-]. apply Z.leb_le in He. eexists. split; [reflexivity |]. now left.
  - apply Z.leb_gt in He.
    assert (Hpow : 0 < 2 ^ (- e)) by (apply Z.pow_pos_nonneg; lia).
    destruct (Zpos M mod 2 ^ (- e) =? 0) eqn:Hmod; [| discriminate].
    intros [= <-]. apply Z.eqb_eq in Hmod.
    eexists. split; [reflexivity |]. right. split; [assumption |].
    rewrite Z.mul_comm. apply Z.div_exact; lia.
Qed.

(** Rounding an integer below 2^53 gives that integer. *)
Lemma round_exact_integer (s : bool) (M : positive) (e q : Z) :
  holds_integer M e q -> q < 2 ^ 53 ->
  integer_value (binary_round_aux prec emax s (Zpos M) e loc_Exact)
  = Some (cond_Zopp s q).
Proof.
  intros Hq Hbound.
  pose proof (holds_integer_pos M e q Hq) as Hpos.
  pose proof (digits_bounds M) as [Dlo Dhi].
  set (d := Zpos (digits2_pos M)) in *.
  assert (Hd : 0 < d) by (subst d; lia).
  destruct Hq as [[He Hq] | [He HM]].
  - assert (0 < 2 ^ e) by (apply Z.pow_pos_nonneg; lia).
    assert (Zpos M < 2 ^ 53) by nia.
    assert (d <= 53).
    { destruct (Z.leb_spec d 53); [assumption |].
      assert (2 ^ 53 <= 2 ^ (d - 1)) by (apply Z.pow_le_mono_r; lia). lia. }
    assert (e < 53).
    { destruct (Z.ltb_spec e 53); [assumption |].
      assert (2 ^ 53 <= 2 ^ e) by (apply Z.pow_le_mono_r; lia). nia. }
    pose proof (round_exact s M e) as R. cbv zeta in R. fold d in R.
    replace (Z.max (d - 53) 0) with 0 in R by lia.
    destruct R as [M' [HM' ->]]; [lia | apply Z.divide_1_l | lia |].
    apply integer_value_finite. left. split; [lia |].
    rewrite Z.add_0_r, Hq, HM'. change (2 ^ 0) with 1. ring.
  - assert (Hpow : 0 < 2 ^ (- e)) by (apply Z.pow_pos_nonneg; lia).
    destruct q as [| Q |]; try lia.
    destruct (digits_quotient M (- e) ltac:(lia)) as [Q' [HQ' HdQ]].
    { exists (Zpos Q). assumption. }
    assert (Q' = Q) by nia. subst Q'. fold d in HdQ.
    pose proof (digits_bounds Q) as [Qlo Qhi].
    assert (Zpos (digits2_pos Q) <= 53).
    { destruct (Z.leb_spec (Zpos (digits2_pos Q)) 53); [assumption |].
      assert (2 ^ 53 <= 2 ^ (Zpos (digits2_pos Q) - 1)) by (apply Z.pow_le_mono_r; lia).
      lia. }
    set (n := Z.max (d - 53) 0).
    assert (Hn : 0 <= n <= - e) by lia.
    assert (Hsplit : 2 ^ (- e) = 2 ^ (- e - n) * 2 ^ n).
    { rewrite <- Z.pow_add_r by lia. f_equal. lia. }
    pose proof (round_exact s M e) as R. cbv zeta in R. fold d in R. fold n in R.
    destruct R as [M' [HM' ->]].
    + lia.
    + exists (Zpos Q * 2 ^ (- e - n)). rewrite HM, Hsplit. ring.
    + lia.
    + apply integer_value_finite.
      assert (0 < 2 ^ n) by (apply Z.pow_pos_nonneg; lia).
      assert (HM'' : Zpos M' = Zpos Q * 2 ^ (- e - n)).
      { apply (Z.mul_cancel_r _ _ (2 ^ n)); [lia |]. rewrite <- HM', HM, Hsplit. ring. }
      destruct (Z.eq_dec (e + n) 0) as [Hz | Hnz].
      * left. split; [lia |]. rewrite Hz, HM''.
        replace (- e - n) with 0 by lia. change (2 ^ 0) with 1. lia.
      * right. split; [lia |]. rewrite HM''. f_equal. f_equal. lia.
Qed.

Lemma iter_xO_pow (m k : positive) : Zpos (Pos.iter xO m k) = Zpos m * 2 ^ Zpos k.
Proof.
  induction k as [| k IH] using Pos.peano_ind.
  - cbn [Pos.iter]. rewrite Pos2Z.inj_xO. change (2 ^ 1) with 2. ring.
  - rewrite Pos.iter_succ, Pos2Z.inj_xO, IH, Pos2Z.inj_succ, Z.pow_succ_r by lia. ring.
Qed.

Lemma binary_round_exact (s : bool) (m : positive) :
  Zpos m < 2 ^ 53 ->
  integer_value (binary_round prec emax s m 0) = Some (cond_Zopp s (Zpos m)).
Proof.
  intros Hm. unfold binary_round, shl_align.
  destruct (fexp prec emax (Zpos (digits2_pos m) + 0) - 0) as [| k | k] eqn:Hshift.
  - apply round_exact_integer; [| assumption]. left. split; [lia | ring].
  - apply round_exact_integer; [| assumption]. left. split; [lia | ring].
  - apply round_exact_integer; [| assumption]. right.
    assert (fexp prec emax (Zpos (digits2_pos m) + 0) = Zneg k) by lia.
    split; [lia |]. rewrite iter_xO_pow. f_equal. f_equal. lia.
Qed.

(** Every integer of magnitude below 2^53 is a double, and read back from
    it unchanged. *)
Lemma binary_normalize_exact (z : Z) (szero : bool) :
  Z.abs z < 2 ^ 53 ->
  integer_value (binary_normalize prec emax z 0 szero) = Some z.
Proof.
  intros Hz. destruct z as [| m | m]; cbn [binary_normalize].
  - reflexivity.
  - now apply binary_round_exact.
  - now apply binary_round_exact.
Qed.

Lemma of_Z_exact (z : Z) : Z.abs z < 2 ^ 53 -> integer_value (of_Z z) = Some z.
Proof. apply binary_normalize_exact. Qed.

(** The product of two integer doubles is their exact product, as long as
    it stays below 2^53 in magnitude. *)
Lemma mul_exact (x y : number) (a b : Z) :
  integer_value x = Some a -> integer_value y = Some b ->
  Z.abs (a * b) < 2 ^ 53 ->
  integer_value (mul x y) = Some (a * b).
Proof.
  intros Hx Hy Hbound.
  destruct x as [sx | sx | | sx mx ex]; try discriminate Hx;
    destruct y as [sy | sy | | sy my ey]; try discriminate Hy.
  - injection Hx as <-. reflexivity.
  - injection Hx as <-. reflexivity.
  - injection Hy as <-. cbn. now rewrite Z.mul_0_r.
  - apply integer_value_holds in Hx, Hy.
    destruct Hx as [qa [-> Ha]], Hy as [qb [-> Hb]].
    pose proof (holds_integer_pos _ _ _ Ha) as Hqa.
    pose proof (holds_integer_pos _ _ _ Hb) as Hqb.
    replace (cond_Zopp sx qa * cond_Zopp sy qb) with (cond_Zopp (xorb sx sy) (qa * qb))
      in * by (destruct sx, sy; cbn; ring).
    unfold mul, SFmul. apply round_exact_integer.
    + unfold holds_integer in *. rewrite Pos2Z.inj_mul.
      destruct Ha as [[Hea ->] | [Hea Hma]], Hb as [[Heb ->] | [Heb Hmb]].
      * left. split; [lia |]. rewrite Z.pow_add_r by lia. ring.
      * rewrite Hmb. destruct (Z.leb_spec 0 (ex + ey)).
        -- left. split; [assumption |].
           replace ex with ((ex + ey) + - ey) at 1 by lia.
           rewrite Z.pow_add_r by lia. ring.
        -- right. split; [assumption |].
           replace (- ey) with (ex + - (ex + ey)) at 1 by lia.
           rewrite Z.pow_add_r by lia. ring.
      * rewrite Hma. destruct (Z.leb_spec 0 (ex + ey)).
        -- left. split; [assumption |].
           replace ey with ((ex + ey) + - ex) at 1 by lia.
           rewrite Z.pow_add_r by lia. ring.
        -- right. split; [assumption |].
           replace (- ex) with (ey + - (ex + ey)) at 1 by lia.
           rewrite Z.pow_add_r by lia. ring.
      * right. split; [lia |]. rewrite Hma, Hmb.
        replace (- (ex + ey)) with (- ex + - ey) by lia.
        rewrite Z.pow_add_r by lia. ring.
    + assert (0 < qa * qb) by nia.
      destruct (xorb sx sy); cbn in Hbound; lia.
Qed.

(** [Math.floor] gives the exact floor of a finite double with a fraction
    part, as long as it stays below 2^53 in magnitude. *)
Lemma Math_floor_finite (s : bool) (m : positive) (e : Z) :
  e < 0 ->
  Z.abs (Z.shiftr (cond_Zopp s (Zpos m)) (- e)) < 2 ^ 53 ->
  integer_value (Math_floor (S754_finite s m e))
  = Some (cond_Zopp s (Zpos m) / 2 ^ (- e)).
Proof.
  intros He Hbound. unfold Math_floor.
  replace (0 <=? e) with false by (symmetry; apply Z.leb_gt; lia).
  rewrite binary_normalize_exact by assumption.
  now rewrite Z.shiftr_div_pow2 by lia.
Qed.

(** [Math.floor] leaves an integer double as it is. *)
Lemma Math_floor_integer (x : number) (a : Z) :
  integer_value x = Some a -> Z.abs a < 2 ^ 53 ->
  integer_value (Math_floor x) = Some a.
Proof.
  intros Hx Ha. destruct x as [s | s | | s m e]; try discriminate Hx; try exact Hx.
  destruct (Z.leb_spec 0 e) as [He | He].
  - unfold Math_floor. apply Z.leb_le in He. now rewrite He.
  - destruct (integer_value_holds _ _ _ _ Hx) as [q [-> [[He' _] | [_ Hm]]]]; [lia |].
    assert (Hpow : 0 < 2 ^ (- e)) by (apply Z.pow_pos_nonneg; lia).
    assert (Hq : cond_Zopp s (Zpos m) / 2 ^ (- e) = cond_Zopp s q).
    { rewrite Hm. replace (cond_Zopp s (q * 2 ^ (- e))) with (cond_Zopp s q * 2 ^ (- e))
        by (destruct s; cbn; ring).
      apply Z.div_mul. lia. }
    rewrite Math_floor_finite; [now rewrite Hq | assumption |].
    now rewrite Z.shiftr_div_pow2, Hq by lia.
Qed.

(** A ratio of integers that is an integer is converted without loss. *)
Lemma of_ratio_exact (neg : bool) (n d : positive) (q : Z) :
  Zpos n = q * Zpos d -> q < 2 ^ 53 ->
  integer_value (of_ratio neg n d) = Some (cond_Zopp neg q).
Proof.
  intros Hn Hq.
  assert (Hqpos : 0 < q) by nia.
  unfold of_ratio, SFdiv, SFdiv_core_binary.
  set (e' := Z.min _ (0 - 0)).
  assert (He' : e' <= 0) by (subst e'; lia).
  set (s := 0 - 0 - e').
  assert (Hs : s = - e') by (subst s; lia).
  assert (Hm' : match s with
                | 0 => Zpos n
                | Zpos _ => Z.shiftl (Zpos n) s
                | Zneg _ => 0
                end = Zpos n * 2 ^ s).
  { destruct s as [| p | p] eqn:Hsv.
    - change (2 ^ 0) with 1. ring.
    - apply Z.shiftl_mul_pow2. lia.
    - lia. }
  rewrite Hm'. clear Hm'.
  assert (Hpow : 0 < 2 ^ s) by (apply Z.pow_pos_nonneg; lia).
  assert (Hdivmod : Z.div_eucl (Zpos n * 2 ^ s) (Zpos d) = (q * 2 ^ s, 0)).
  { pose proof (Z.div_eucl_eq (Zpos n * 2 ^ s) (Zpos d) ltac:(lia)) as Heq.
    pose proof (Z.mod_pos_bound (Zpos n * 2 ^ s) (Zpos d) ltac:(lia)) as Hbound.
    unfold Z.modulo in Hbound.
    destruct (Z.div_eucl (Zpos n * 2 ^ s) (Zpos d)) as [k r].
    assert (r = 0 /\ k = q * 2 ^ s); [| f_equal; tauto].
    rewrite Hn in Heq.
    assert (Hr : r = Zpos d * (q * 2 ^ s - k)) by lia.
    assert (q * 2 ^ s - k = 0) by nia. lia. }
  rewrite Hdivmod.
  replace (new_location (Zpos d) 0) with loc_Exact
    by (unfold new_location, new_location_even, new_location_odd;
        destruct (Z.even (Zpos d)); reflexivity).
  rewrite xorb_false_r.
  assert (0 < q * 2 ^ s) by nia.
  destruct (q * 2 ^ s) as [| M |] eqn:HM; try lia.
  apply round_exact_integer; [| assumption].
  destruct (Z.eq_dec e' 0) as [Hz | Hnz].
  - left. split; [lia |]. rewrite Hz. replace s with 0 in HM by lia.
    change (2 ^ 0) with 1 in *. lia.
  - right. split; [lia |]. rewrite <- Hs. lia.
Qed.

Lemma cond_Zopp_abs (s : bool) (z : Z) : Z.abs (cond_Zopp s z) = Z.abs z.
Proof. destruct s; cbn; lia. Qed.

Lemma decimal_to_number_whole (d : decimal) (q : Z) :
  whole_value d = Some q -> Z.abs q < 2 ^ 53 ->
  integer_value (decimal_to_number d) = Some q.
Proof.
  destruct d as [neg digits e10]. unfold whole_value, decimal_to_number.
  cbn [dec_neg dec_digits dec_exp10].
  destruct digits as [| m].
  - intros Hq _. assert (q = 0).
    { destruct (0 <=? e10); [injection Hq as <-; destruct neg; reflexivity |].
      destruct (Z.of_N 0 mod 10 ^ (- e10) =? 0); [| discriminate].
      injection Hq as <-. destruct neg; reflexivity. }
    subst q. reflexivity.
  - change (Z.of_N (Npos m)) with (Zpos m).
    destruct (Z.leb_spec 0 e10) as [He | He].
    + intros Hq Hbound.
      assert (Hq' : q = cond_Zopp neg (Zpos m * 10 ^ e10)) by congruence.
      clear Hq. subst q. rewrite cond_Zopp_abs in Hbound.
      assert (Hpow : 0 < 10 ^ e10) by (apply Z.pow_pos_nonneg; lia).
      apply of_ratio_exact; [| lia].
      rewrite Pos2Z.inj_mul, Z2Pos.id by assumption. ring.
    + assert (Hpow : 0 < 10 ^ (- e10)) by (apply Z.pow_pos_nonneg; lia).
      destruct (Zpos m mod 10 ^ (- e10) =? 0) eqn:Hmod; [| discriminate].
      intros Hq Hbound.
      assert (Hq' : q = cond_Zopp neg (Zpos m / 10 ^ (- e10))) by congruence.
      clear Hq. subst q. rewrite cond_Zopp_abs in Hbound.
      apply Z.eqb_eq in Hmod.
      assert (0 <= Zpos m / 10 ^ (- e10)) by (apply Z.div_pos; lia).
      apply of_ratio_exact; [| lia].
      rewrite Z2Pos.id by assumption. rewrite Z.mul_comm. apply Z.div_exact; lia.
Qed.

Lemma exact_base_units_whole (d : decimal) (q : Z) (decimals : nat) :
  whole_value d = Some q ->
  exact_base_units d decimals = q * 10 ^ Z.of_nat decimals.
Proof.
  destruct d as [neg digits e10]. unfold whole_value, exact_base_units.
  cbn [dec_neg dec_digits dec_exp10].
  set (m := Z.of_N digits). set (k := Z.of_nat decimals).
  assert (Hk : 0 <= k) by (subst k; lia).
  replace (if neg then - m else m) with (cond_Zopp neg m) by (destruct neg; reflexivity).
  destruct (Z.leb_spec 0 e10) as [He | He].
  - intros [= <-].
    replace (0 <=? e10 + k) with true by (symmetry; apply Z.leb_le; lia).
    rewrite Z.pow_add_r by lia. destruct neg; cbn; ring.
  - assert (Hpow : 0 < 10 ^ (- e10)) by (apply Z.pow_pos_nonneg; lia).
    destruct (m mod 10 ^ (- e10) =? 0) eqn:Hmod; [| discriminate].
    intros [= <-]. apply Z.eqb_eq in Hmod.
    assert (Hm : m = (m / 10 ^ (- e10)) * 10 ^ (- e10)).
    { rewrite Z.mul_comm. apply Z.div_exact; lia. }
    set (w := m / 10 ^ (- e10)) in *.
    assert (Hsigned : cond_Zopp neg m = cond_Zopp neg w * 10 ^ (- e10)).
    { rewrite Hm at 1. destruct neg; cbn; ring. }
    rewrite Hsigned.
    destruct (Z.leb_spec 0 (e10 + k)) as [Hek | Hek].
    + replace k with (- e10 + (e10 + k)) at 2 by lia.
      rewrite (Z.pow_add_r 10 (- e10) (e10 + k)) by lia. ring.
    + assert (0 < 10 ^ (- (e10 + k))) by (apply Z.pow_pos_nonneg; lia).
      replace (- e10) with (k + - (e10 + k)) by lia.
      rewrite (Z.pow_add_r 10 k (- (e10 + k))), Z.mul_assoc by lia.
      apply Z.div_mul. lia.
Qed.

(** X1: amounts that are whole numbers are never short-changed.  When the
    amount field reads as a whole number [q] (digits, possibly followed by a
    fraction of zeros or an exponent) and [q * 10^decimals] is below 2^53,
    the amount put in the instruction is exactly [q * 10^decimals], the
    floor the scaling rule asks for. *)
Theorem whole_amounts_scale_exactly
    (amount : string) (decimals : nat) (d : decimal) (q : Z) :
  parseLiteral amount = LitDecimal d ->
  whole_value d = Some q ->
  10 ^ Z.of_nat decimals < 2 ^ 53 ->
  Z.abs q * 10 ^ Z.of_nat decimals < 2 ^ 53 ->
  integer_value (scaleAmount amount decimals) = Some (q * 10 ^ Z.of_nat decimals)
  /\ spec_base_units amount decimals = Some (q * 10 ^ Z.of_nat decimals).
Proof.
  intros Hparse Hwhole Hpow Hbound.
  assert (Hten : 0 < 10 ^ Z.of_nat decimals) by (apply Z.pow_pos_nonneg; lia).
  split.
  - unfold scaleAmount, parseFloat. rewrite Hparse. cbn [literal_to_number].
    assert (Hprod : Z.abs (q * 10 ^ Z.of_nat decimals) < 2 ^ 53)
      by (rewrite Z.abs_mul, (Z.abs_eq (10 ^ _)); lia).
    apply Math_floor_integer; [| assumption].
    apply mul_exact; [| | assumption].
    + apply decimal_to_number_whole; [assumption | nia].
    + unfold Math_pow10. apply of_Z_exact. lia.
  - unfold spec_base_units. rewrite Hparse. f_equal.
    now apply exact_base_units_whole.
Qed.

Lemma whole_amounts_scale_exactly_witness :
  integer_value (scaleAmount "9007199.000" 9) = Some 9007199000000000
  /\ spec_base_units "9007199.000" 9 = Some 9007199000000000.
Proof.
  apply (whole_amounts_scale_exactly "9007199.000" 9
           (mkDecimal false 9007199000 (-3)) 9007199);
    [reflexivity | reflexivity | reflexivity | reflexivity].
Defined.

(* ===================================================================== *)
(** * The recency list and its stored copy *)
(* ===================================================================== *)

(** What a run of [mintToken] can do to the recency list and to the stored
    copy: nothing; or, for an address that is not in the list, put it in
    front of both, or of the list alone when the write throws. *)
Lemma mintToken_recency_cases
    (env : Env) (walletAddress : string) (s : MintToken.State) (st : Storage) :
  let run := MintToken.run_mintToken env walletAddress s st in
  let address := MintToken.tokenMintAddress s in
  let before := MintToken.recentTokens s in
  let after := MintToken.recentTokens (state_of run) in
  (after = before /\ storage_of run = st /\ storage_failed (trace_of run) = false)
  \/ (includes address before = false
      /\ after = MintToken.updatedTokens address before
      /\ confirmed_on_ledger (trace_of run) = true
      /\ ((storage_of run = storage_set "recentTokens" after st
           /\ storage_failed (trace_of run) = false)
          \/ (storage_of run = st /\ storage_failed (trace_of run) = true
              /\ notifications (trace_of run) = [(error, MintToken.failed_to_mint)]
              /\ MintToken.amount (state_of run) = MintToken.amount s))).
Proof.
  unfold state_of, storage_of, trace_of.
  destruct s; unfold_submit; run_cases; cbn;
    try (left; repeat split; reflexivity);
    try match goal with H : negb _ = _ |- _ => cbn in H; try discriminate H end.
  all: right; repeat split; try reflexivity; auto.
  all: apply negb_true_iff; assumption.
Qed.

Lemma NoDup_firstn {A} (n : nat) (l : list A) : NoDup l -> NoDup (firstn n l).
Proof.
  intros Hl. rewrite <- (firstn_skipn n l) in Hl. now apply NoDup_app_remove_r in Hl.
Qed.

Lemma In_firstn {A} (n : nat) (l : list A) (x : A) : In x (firstn n l) -> In x l.
Proof.
  intros Hin. rewrite <- (firstn_skipn n l). apply in_or_app. now left.
Qed.

(** X2: the recency list stays a list of at most five distinct addresses,
    whatever a run of [mintToken] does, and holds nothing but earlier
    entries and the address just minted. *)
Theorem recency_list_invariants
    (env : Env) (walletAddress : string) (s : MintToken.State) (st : Storage) :
  let before := MintToken.recentTokens s in
  let after :=
    MintToken.recentTokens (state_of (MintToken.run_mintToken env walletAddress s st)) in
  (NoDup before -> NoDup after)
  /\ (List.length before <= 5 -> List.length after <= 5)%nat
  /\ (forall a, In a after -> a = MintToken.tokenMintAddress s \/ In a before).
Proof.
  intros before after.
  destruct (mintToken_recency_cases env walletAddress s st)
    as [[Hsame _] | [Hnew [Hafter _]]]; fold before after in Hsame || fold before after in Hafter.
  - rewrite Hsame. repeat split; auto.
  - fold before in Hnew. rewrite Hafter. unfold MintToken.updatedTokens. repeat split.
    + intros Hnodup. apply NoDup_firstn. constructor; [| assumption].
      intros Hin. apply includes_In in Hin. congruence.
    + intros _. apply firstn_le_length.
    + intros a Hin. apply In_firstn in Hin. destruct Hin as [<- | Hin]; auto.
Qed.

(** X7: the stored list follows the list on screen.  If localStorage holds
    the recency list before a run of [mintToken] and no write to it throws,
    it holds the recency list after the run, so a later mount of the
    component shows the same list. *)
Theorem stored_list_follows_the_screen
    (env : Env) (walletAddress : string) (s : MintToken.State) (st : Storage) :
  storage_get "recentTokens" st = Some (MintToken.recentTokens s) ->
  storage_failed (trace_of (MintToken.run_mintToken env walletAddress s st)) = false ->
  MintToken.recentTokens
    (state_of (MintView.loadRecentTokens
                 (mkWorld MintToken.initial
                    (storage_of (MintToken.run_mintToken env walletAddress s st)))))
  = MintToken.recentTokens (state_of (MintToken.run_mintToken env walletAddress s st)).
Proof.
  intros Hstored Hwrites.
  assert (Hget : storage_get "recentTokens"
                   (storage_of (MintToken.run_mintToken env walletAddress s st))
                 = Some (MintToken.recentTokens
                           (state_of (MintToken.run_mintToken env walletAddress s st)))).
  { destruct (mintToken_recency_cases env walletAddress s st)
      as [[Hsame [Hst _]] | [_ [_ [_ [[Hst _] | [_ [Hfailed _]]]]]]].
    - now rewrite Hsame, Hst.
    - rewrite Hst. apply storage_get_set.
    - congruence. }
  unfold MintView.loadRecentTokens, withRender, state_of. cbn [localStorage].
  now rewrite Hget.
Qed.

(** X8: a mint the ledger confirmed is reported as failed when the write to
    localStorage throws: the only notification is the failure message, and
    the amount field is not cleared, although the address has joined the
    list on screen. *)
Theorem storage_failure_masks_a_confirmed_mint
    (env : Env) (walletAddress : string) (s : MintToken.State) (st : Storage) :
  storage_failed (trace_of (MintToken.run_mintToken env walletAddress s st)) = true ->
  let run := MintToken.run_mintToken env walletAddress s st in
  confirmed_on_ledger (trace_of run) = true
  /\ notifications (trace_of run) = [(error, MintToken.failed_to_mint)]
  /\ MintToken.amount (state_of run) = MintToken.amount s
  /\ hd_error (MintToken.recentTokens (state_of run)) = Some (MintToken.tokenMintAddress s)
  /\ storage_of run = st.
Proof.
  intros Hfailed run.
  destruct (mintToken_recency_cases env walletAddress s st)
    as [[_ [_ Hnone]] | [_ [Hafter [Hconfirmed [[_ Hnone] | [Hst [_ [Hnotified Hamount]]]]]]]];
    try congruence.
  subst run. rewrite Hafter. repeat split; assumption || reflexivity.
Qed.

Lemma stored_list_follows_the_screen_witness :
  let run := MintToken.run_mintToken Sample.cooperative Sample.wallet Scenes.mint_form
               [("recentTokens", [Sample.mintB])] in
  MintToken.recentTokens (state_of (MintView.loadRecentTokens
                                      (mkWorld MintToken.initial (storage_of run))))
  = [Sample.mintA; Sample.mintB]
  /\ MintToken.recentTokens (state_of run) = [Sample.mintA; Sample.mintB].
Proof.
  split; [| reflexivity].
  rewrite (stored_list_follows_the_screen Sample.cooperative Sample.wallet Scenes.mint_form
             [("recentTokens", [Sample.mintB])]); reflexivity.
Defined.

Lemma storage_failure_masks_a_confirmed_mint_witness :
  let run := MintToken.run_mintToken Scenes.full_storage Sample.wallet Scenes.mint_form [] in
  storage_failed (trace_of run) = true
  /\ confirmed_on_ledger (trace_of run) = true
  /\ notifications (trace_of run) = [(error, MintToken.failed_to_mint)].
Proof.
  split; [reflexivity |].
  pose proof (storage_failure_masks_a_confirmed_mint Scenes.full_storage Sample.wallet
                Scenes.mint_form [] eq_refl) as H.
  split; [exact (proj1 H) | exact (proj1 (proj2 H))].
Defined.

(* ===================================================================== *)
(** * Past the guard *)
(* ===================================================================== *)

Section AfterTheGuard.
Import Lifecycle.

Variable env : Env.
Variable walletAddress : string.
Variable st : Storage.

(** X9: an operation that ends with its failure message, whatever failed
    (a rejected key, an unknown token, a collaborator), and did not get as
    far as writing to localStorage, leaves every field of the form as the
    user filled it, so it can be submitted again as it is. *)
Theorem failed_operation_keeps_the_form (f : Form) :
  In (Notify error (failure_message f)) (trace (submit env walletAddress f st)) ->
  storage_writes (trace (submit env walletAddress f st)) = [] ->
  form (submit env walletAddress f st) = idle f
  /\ storage (submit env walletAddress f st) = st.
Proof.
  unfold storage_writes.
  destruct f as [s | s | s]; destruct s; unfold_submit; run_cases;
    cbn; intros Hin Hwrites; try discriminate Hwrites;
    repeat (destruct Hin as [Hin | Hin]; try discriminate Hin); try contradiction;
    split; reflexivity.
Qed.

(** X10: [sendToken] looks the selected token up among the loaded balances
    before it contacts anyone: for a token that is not there (one with a
    zero balance, or one the list was never loaded for) it sends no request
    at all and ends with the failure message. *)
Theorem unknown_token_sends_nothing (s : SendToken.State) :
  existsb isEmpty (required_fields (Send s)) = false ->
  (forall t, In t (SendToken.tokenBalances s) ->
     SendToken.mint t <> SendToken.selectedToken s) ->
  requests (trace (submit env walletAddress (Send s) st)) = []
  /\ notifications (trace (submit env walletAddress (Send s) st))
     = [(error, SendToken.failed_to_send)]
  /\ form (submit env walletAddress (Send s) st) = idle (Send s).
Proof.
  intros Hfilled Hunknown.
  assert (Hfind : find (fun t => String.eqb (SendToken.mint t) (SendToken.selectedToken s))
                       (SendToken.tokenBalances s) = None).
  { destruct (find _ _) as [t |] eqn:Hf; [| reflexivity].
    apply find_some in Hf. destruct Hf as [Hin Heq]. apply String.eqb_eq in Heq.
    now destruct (Hunknown t Hin). }
  destruct s as [recipient token amt loading balances loadingTokens].
  cbn [required_fields existsb SendToken.selectedToken SendToken.recipientAddress
       SendToken.amount SendToken.tokenBalances] in *.
  rewrite orb_false_r, orb_assoc in Hfilled.
  unfold_submit. rewrite Hfilled, Hfind. run_cases; cbn; repeat split.
Qed.

(** X11: after a successful send the amount and the recipient are cleared,
    while the selected token and the loaded balances stay as they were:
    [sendToken] does not reload the balances, so the balance on screen is
    the one from before the transfer. *)
Theorem successful_send_clears_the_inputs (s : SendToken.State) :
  In (Notify success (SendToken.successfully_sent (SendToken.amount s)))
     (trace (submit env walletAddress (Send s) st)) ->
  form (submit env walletAddress (Send s) st)
  = Send (SendToken.mkState "" (SendToken.selectedToken s) "" false
            (SendToken.tokenBalances s) (SendToken.isLoadingTokens s))
  /\ storage (submit env walletAddress (Send s) st) = st
  /\ submitted (submit env walletAddress (Send s) st) = true.
Proof.
  unfold submitted.
  destruct s; unfold_submit; run_cases; cbn; intros Hin;
    repeat (destruct Hin as [Hin | Hin]; try discriminate Hin); try contradiction;
    repeat split.
Qed.
End AfterTheGuard.

Lemma failed_operation_keeps_the_form_witness :
  let f := Lifecycle.Mint Scenes.mint_form in
  let o := Lifecycle.submit Sample.declining Sample.wallet f [] in
  In (Notify error (Lifecycle.failure_message f)) (Lifecycle.trace o)
  /\ Lifecycle.form o = Lifecycle.idle f
  /\ Lifecycle.storage o = [].
Proof.
  assert (Hin : In (Notify error (Lifecycle.failure_message (Lifecycle.Mint Scenes.mint_form)))
                   (Lifecycle.trace (Lifecycle.submit Sample.declining Sample.wallet
                                       (Lifecycle.Mint Scenes.mint_form) []))).
  { vm_compute. repeat (first [left; reflexivity | right]). }
  split; [exact Hin |].
  exact (failed_operation_keeps_the_form Sample.declining Sample.wallet []
           (Lifecycle.Mint Scenes.mint_form) Hin eq_refl).
Defined.

Lemma unknown_token_sends_nothing_witness :
  let s := SendToken.mkState Sample.wallet Sample.mintB "1" false
             [SendToken.mkTokenBalance Sample.mintA (of_Z 10) 2] false in
  requests (Lifecycle.trace (Lifecycle.submit Sample.cooperative Sample.wallet
                               (Lifecycle.Send s) [])) = [].
Proof.
  apply (unknown_token_sends_nothing Sample.cooperative Sample.wallet []
           (SendToken.mkState Sample.wallet Sample.mintB "1" false
              [SendToken.mkTokenBalance Sample.mintA (of_Z 10) 2] false)).
  - reflexivity.
  - intros t [<- | []]. discriminate.
Defined.

Lemma successful_send_clears_the_inputs_witness :
  let o := Lifecycle.submit Sample.cooperative Sample.wallet
             (Lifecycle.Send Scenes.send_form) [] in
  Lifecycle.form o
  = Lifecycle.Send (SendToken.mkState "" Sample.mintA "" false
                      [SendToken.mkTokenBalance Sample.mintA (of_Z 10) 2] false)
  /\ Lifecycle.submitted o = true.
Proof.
  assert (Hin : In (Notify success
                      (SendToken.successfully_sent (SendToken.amount Scenes.send_form)))
                   (Lifecycle.trace (Lifecycle.submit Sample.cooperative Sample.wallet
                                       (Lifecycle.Send Scenes.send_form) []))).
  { vm_compute. repeat (first [left; reflexivity | right]). }
  pose proof (successful_send_clears_the_inputs Sample.cooperative Sample.wallet []
                Scenes.send_form Hin) as H.
  split; [exact (proj1 H) | exact (proj2 (proj2 H))].
Defined.

(* ===================================================================== *)
(** * Reading the history *)
(* ===================================================================== *)

Section HistoryFailures.
Import TransactionHistory HistoryView.

Variable env : Env.

Lemma promise_all_lookups (sigs : list ConfirmedSignatureInfo) (w : World State) :
  promise_all
    (map (fun sig =>
            tx <- call (GetParsedTransaction (sig_signature sig))
                       (getParsedTransaction env (sig_signature sig)) ;;
            ret (row_of sig tx)) sigs) w
  = (all_rows env sigs, w, lookups env sigs).
Proof.
  induction sigs as [| sig sigs IH]; [reflexivity |].
  cbn [map promise_all all_rows lookups].
  unfold bind at 1, call at 1, ret at 1.
  destruct (getParsedTransaction env (sig_signature sig)) as [tx | e];
    cbv beta iota zeta; rewrite IH; cbn [status_of app];
    destruct (all_rows env sigs); reflexivity.
Qed.

(** A run of [fetchTransactions] for a wallet address, spelled out. *)
Lemma fetchTransactions_run (walletAddress : string) (s : State) (st : Storage) :
  isEmpty walletAddress = false ->
  run_fetchTransactions env walletAddress s st
  = let kept := mkWorld (mkState (transactions s) false) st in
    let listing := Call (GetSignaturesForAddress walletAddress signature_limit) in
    if isPublicKey env walletAddress then
      match getSignaturesForAddress env walletAddress signature_limit with
      | Throw e => (Normal tt, kept, [listing (Threw e); ConsoleError history_error e])
      | Normal sigs =>
          match all_rows env sigs with
          | Normal rows =>
              (Normal tt, mkWorld (mkState rows false) st,
               listing Returned :: lookups env sigs)
          | Throw e =>
              (Normal tt, kept,
               listing Returned :: lookups env sigs ++ [ConsoleError history_error e])
          end
      end
    else (Normal tt, kept, [ConsoleError history_error "Invalid public key input"]).
Proof.
  intros Hwallet.
  unfold run_fetchTransactions, fetchTransactions. rewrite Hwallet.
  unfold bind at 1. unfold setIsLoading at 1, setState at 1.
  cbv beta iota zeta. cbn [component localStorage].
  unfold try_finally, try_catch.
  unfold bind at 1. unfold newPublicKey.
  destruct (isPublicKey env walletAddress); [| reflexivity].
  unfold ret at 1. cbv beta iota zeta.
  unfold bind at 1. unfold call at 1.
  destruct (getSignaturesForAddress env walletAddress signature_limit) as [sigs | e];
    [| reflexivity].
  cbv beta iota zeta. unfold bind at 1. rewrite promise_all_lookups.
  destruct (all_rows env sigs) as [rows | e]; cbn; now rewrite ?app_nil_r.
Qed.

Lemma lookups_are_calls (sigs : list ConfirmedSignatureInfo) :
  notifications (lookups env sigs) = []
  /\ (forall label detail, ~ In (ConsoleError label detail) (lookups env sigs))
  /\ requests (lookups env sigs)
     = map (fun sig => GetParsedTransaction (sig_signature sig)) sigs.
Proof.
  induction sigs as [| sig sigs [IHn [IHc IHr]]]; [repeat split; intros ? ? [] |].
  repeat split.
  - exact IHn.
  - intros label detail [H | H]; [discriminate H | now apply (IHc label detail)].
  - cbn. now rewrite <- IHr.
Qed.

Lemma notifications_app (t u : list Event) :
  notifications (t ++ u) = notifications t ++ notifications u.
Proof. apply flat_map_app. Qed.

Lemma requests_app (t u : list Event) : requests (t ++ u) = requests t ++ requests u.
Proof. apply flat_map_app. Qed.

(** X12: reading the history never notifies the user and never leaves the
    view loading.  When the read fails at any step (a rejected address,
    the signature list, any one lookup) the rows already on screen stay as
    they are: a failure is logged, not shown, and does not empty the list. *)
Theorem history_read_failures_are_silent
    (walletAddress : string) (s : State) (st : Storage) :
  let run := run_fetchTransactions env walletAddress s st in
  notifications (trace_of run) = []
  /\ storage_of run = st
  /\ (isEmpty walletAddress = false -> isLoading (state_of run) = false)
  /\ (forall label detail, In (ConsoleError label detail) (trace_of run) ->
        transactions (state_of run) = transactions s).
Proof.
  intros run. subst run.
  destruct (isEmpty walletAddress) eqn:Hwallet.
  { unfold run_fetchTransactions, fetchTransactions. rewrite Hwallet. cbn.
    repeat split; try discriminate. }
  rewrite (fetchTransactions_run walletAddress s st Hwallet). cbv zeta.
  destruct (isPublicKey env walletAddress); [| cbn; repeat split].
  destruct (getSignaturesForAddress env walletAddress signature_limit) as [sigs | e];
    [| cbn; repeat split].
  destruct (lookups_are_calls sigs) as [Hn [Hc _]].
  destruct (all_rows env sigs) as [rows | e];
    unfold state_of, storage_of, trace_of; cbn [fst snd component localStorage
                                                 transactions isLoading].
  - repeat split.
    + exact Hn.
    + intros label detail [H | H]; [discriminate H | now destruct (Hc label detail)].
  - repeat split.
    change (notifications (lookups env sigs ++ [ConsoleError history_error e]) = []).
    now rewrite notifications_app, Hn.
Qed.

(** X13: every transaction of the signature list is looked up, in the order
    of the list, whether or not another lookup fails: the requests of a run
    that got the list are the list request followed by one lookup per
    signature. *)
Theorem history_looks_up_every_signature
    (walletAddress : string) (s : State) (st : Storage)
    (sigs : list ConfirmedSignatureInfo) :
  isEmpty walletAddress = false ->
  isPublicKey env walletAddress = true ->
  getSignaturesForAddress env walletAddress signature_limit = Normal sigs ->
  requests (trace_of (run_fetchTransactions env walletAddress s st))
  = GetSignaturesForAddress walletAddress signature_limit
    :: map (fun sig => GetParsedTransaction (sig_signature sig)) sigs.
Proof.
  intros Hwallet Hkey Hsigs.
  rewrite (fetchTransactions_run walletAddress s st Hwallet). cbv zeta.
  rewrite Hkey, Hsigs.
  destruct (lookups_are_calls sigs) as [_ [_ Hr]].
  destruct (all_rows env sigs) as [rows | e]; unfold trace_of; cbn [snd].
  - cbn. now rewrite <- Hr.
  - match goal with
    | |- requests (?a :: ?l ++ ?r) = _ => change (a :: l ++ r) with ([a] ++ l ++ r)
    end.
    rewrite !requests_app, Hr. cbn. now rewrite app_nil_r.
Qed.
End HistoryFailures.

Lemma history_looks_up_every_signature_witness :
  requests (trace_of (TransactionHistory.run_fetchTransactions Sample.busy_ledger
                        Sample.wallet (TransactionHistory.mkState [] false) []))
  = [GetSignaturesForAddress Sample.wallet 10;
     GetParsedTransaction "signature-3";
     GetParsedTransaction "signature-2";
     GetParsedTransaction "signature-1"].
Proof.
  apply (history_looks_up_every_signature Sample.busy_ledger Sample.wallet
           (TransactionHistory.mkState [] false) [] Sample.history);
    reflexivity.
Defined.

(* ===================================================================== *)
(** * Loading the balances *)
(* ===================================================================== *)

Section LoadingBalances.
Import SendToken SendView.

Variable env : Env.
Variable host : Host.

(** The loop adds, for each account in turn, the entries of [listed];
    it changes no state and notifies nothing. *)
Lemma collectBalances_listed (accounts : list ParsedTokenAccount)
    (balances : list TokenBalance) (w : World State) :
  exists t,
    collectBalances env accounts balances w
    = (Normal (balances ++ flat_map (listed env) accounts), w, t)
    /\ notifications t = [].
Proof.
  revert balances. induction accounts as [| account rest IH]; intros balances.
  - exists []. cbn. now rewrite app_nil_r.
  - cbn [collectBalances flat_map]. unfold bind at 1.
    assert (Hone : exists t1,
               collectBalance env account balances w
               = (Normal (balances ++ listed env account), w, t1)
               /\ notifications t1 = []).
    { unfold collectBalance, listed.
      destruct (account_uiAmount account) as [tokenBalance |];
        [| exists []; cbn; now rewrite app_nil_r].
      destruct (greater_than_zero (Some tokenBalance));
        [| exists []; cbn; now rewrite app_nil_r].
      cbn [andb]. unfold try_catch, bind, newPublicKey, call, ret, throw, console_error, emit.
      destruct (isPublicKey env (account_mint account)).
      - destruct (getMint env (account_mint account)) as [decimals | e];
          eexists; cbn; rewrite ?app_nil_r; split; reflexivity.
      - eexists. cbn. rewrite ?app_nil_r. split; reflexivity. }
    destruct Hone as [t1 [Hone Hn1]]. rewrite Hone.
    destruct (IH (balances ++ listed env account)) as [t2 [Hrest Hn2]].
    rewrite Hrest. exists (t1 ++ t2). split.
    + now rewrite <- app_assoc.
    + unfold notifications in *. now rewrite flat_map_app, Hn1, Hn2.
Qed.

Lemma listed_positive (account : ParsedTokenAccount) :
  Forall (fun t => greater_than_zero (Some (balance t)) = true) (listed env account).
Proof.
  unfold listed. destruct (account_uiAmount account) as [tokenBalance |]; [| constructor].
  destruct (greater_than_zero (Some tokenBalance)) eqn:Hpos; [| constructor].
  cbn [andb]. destruct (isPublicKey env (account_mint account)); [| constructor].
  destruct (getMint env (account_mint account)); repeat constructor. exact Hpos.
Qed.

(** X14: when the ledger lists the accounts of the wallet, the send form
    offers, in the ledger's order, exactly the accounts with a balance
    above zero whose mint could be read, each with the decimals its mint
    reports.  No account with a zero or missing balance is ever offered,
    and a mint that cannot be read is skipped without telling the user. *)
Theorem loaded_balances
    (walletAddress : string) (s : State) (st : Storage)
    (accounts : list ParsedTokenAccount) :
  isEmpty walletAddress = false ->
  isPublicKey env walletAddress = true ->
  getParsedTokenAccountsByOwner host walletAddress = Normal accounts ->
  let run := fetchTokenAccounts env host walletAddress (mkWorld s st) in
  tokenBalances (state_of run) = flat_map (listed env) accounts
  /\ Forall (fun t => greater_than_zero (Some (balance t)) = true) (tokenBalances (state_of run))
  /\ isLoadingTokens (state_of run) = false
  /\ notifications (trace_of run) = [].
Proof.
  intros Hwallet Hkey Hlist run.
  assert (Hrun : exists t,
             run = (Normal tt,
                    mkWorld (mkState (recipientAddress s) (selectedToken s) (amount s)
                               (isLoading s) (flat_map (listed env) accounts) false) st, t)
             /\ notifications t = []).
  { subst run. unfold fetchTokenAccounts. rewrite Hwallet.
    unfold bind at 1. unfold setIsLoadingTokens at 1, setState at 1.
    cbv beta iota zeta. cbn [component localStorage].
    unfold try_finally, try_catch.
    unfold bind at 1. unfold newPublicKey. rewrite Hkey.
    unfold ret at 1. cbv beta iota zeta.
    unfold bind at 1. unfold await at 1. rewrite Hlist. cbv beta iota zeta.
    unfold bind at 1.
    match goal with
    | |- context [collectBalances env accounts [] ?w] =>
        destruct (collectBalances_listed accounts [] w) as [t [Hloop Hn]]; rewrite Hloop
    end.
    exists t. split; [| exact Hn]. cbn. now rewrite !app_nil_r. }
  destruct Hrun as [t [Hrun Hn]]. rewrite Hrun.
  unfold state_of, trace_of. cbn [fst snd component tokenBalances isLoadingTokens].
  repeat split; try assumption.
  apply Forall_flat_map. apply Forall_forall. intros account _. apply listed_positive.
Qed.

(** X15: when the account list cannot be read (the address is rejected or
    the ledger throws), the user is told "Failed to load your tokens", the
    balances loaded earlier stay, and the form stops loading. *)
Theorem unreadable_accounts_keep_the_balances
    (walletAddress : string) (s : State) (st : Storage) :
  isEmpty walletAddress = false ->
  (isPublicKey env walletAddress = false
   \/ exists e, getParsedTokenAccountsByOwner host walletAddress = Throw e) ->
  let run := fetchTokenAccounts env host walletAddress (mkWorld s st) in
  tokenBalances (state_of run) = tokenBalances s
  /\ isLoadingTokens (state_of run) = false
  /\ notifications (trace_of run) = [(error, failed_to_load)]
  /\ requests (trace_of run) = [].
Proof.
  intros Hwallet Hfail run. subst run.
  unfold fetchTokenAccounts. rewrite Hwallet.
  unfold setIsLoadingTokens, setTokenBalances, await.
  destruct (isPublicKey env walletAddress) eqn:Hkey.
  - destruct Hfail as [Hno | [e Hthrow]]; [discriminate |].
    unfold_monad. rewrite Hkey. unfold_monad. rewrite Hthrow.
    destruct s; cbn. repeat split.
  - unfold_monad. rewrite Hkey. destruct s; cbn. repeat split.
Qed.
End LoadingBalances.

Lemma loaded_balances_witness :
  SendToken.tokenBalances
    (state_of (SendView.fetchTokenAccounts Sample.cooperative Scenes.phantom Sample.wallet
                 (mkWorld Scenes.send_form [])))
  = [SendToken.mkTokenBalance Sample.mintA (of_Z 10) 6].
Proof.
  apply (loaded_balances Sample.cooperative Scenes.phantom Sample.wallet Scenes.send_form []
           Scenes.accounts); reflexivity.
Defined.

Lemma unreadable_accounts_keep_the_balances_witness :
  let run := SendView.fetchTokenAccounts Sample.cooperative Scenes.unreachable Sample.wallet
               (mkWorld Scenes.send_form []) in
  SendToken.tokenBalances (state_of run) = [SendToken.mkTokenBalance Sample.mintA (of_Z 10) 2]
  /\ notifications (trace_of run) = [(error, SendView.failed_to_load)].
Proof.
  pose proof (unreadable_accounts_keep_the_balances Sample.cooperative Scenes.unreachable
                Sample.wallet Scenes.send_form [] eq_refl
                (or_intror (ex_intro _ "failed to fetch" eq_refl))) as H.
  split; [exact (proj1 H) | exact (proj1 (proj2 (proj2 H)))].
Defined.

(* ===================================================================== *)
(** * Connecting the wallet *)
(* ===================================================================== *)

Section Connecting.
Import WalletPanel.

Variable env : Env.
Variable host : Host.

(** X16: what a press of Connect does.  Without a detected Phantom it opens
    the Phantom site and says to install it; with one it asks the wallet,
    and stores the address the wallet returns or, if the wallet throws,
    says that connecting failed.  In no case does it touch the address
    otherwise, leave the button loading, or show more than one
    notification. *)
Theorem connectWallet_outcomes (s : State) (st : Storage) :
  let run := withRender (connectWallet env host) (mkWorld s st) in
  let after := state_of run in
  isLoading after = false
  /\ isPhantomInstalled after = isPhantomInstalled s
  /\ storage_of run = st
  /\ (isPhantomInstalled s = false ->
        session after = session s
        /\ openedWindows after = openedWindows s ++ [phantom_site]
        /\ notifications (trace_of run) = [(error, install_phantom)])
  /\ (isPhantomInstalled s = true ->
        openedWindows after = openedWindows s
        /\ (walletInjected env = false ->
              session after = session s /\ notifications (trace_of run) = [])
        /\ (forall address,
              walletInjected env = true -> connect host = Normal address ->
              session after
              = WalletConnect.mkSession (Some address) (WalletConnect.solBalance (session s))
              /\ notifications (trace_of run) = [(success, wallet_connected)])
        /\ (forall thrown,
              walletInjected env = true -> connect host = Throw thrown ->
              session after = session s
              /\ notifications (trace_of run) = [(error, failed_to_connect)])).
Proof.
  unfold withRender, connectWallet, state_of, storage_of, trace_of.
  destruct s as [sess loading installed opened]. cbn [component isPhantomInstalled].
  destruct installed; cbn [negb].
  - destruct (walletInjected env) eqn:Hinjected.
    + destruct (connect host) as [address | thrown] eqn:Hconnect;
        unfold_panel; cbn; repeat split; try discriminate;
        intros; congruence.
    + unfold_panel. cbn. repeat split; try discriminate.
  - unfold_panel. cbn. repeat split; try discriminate.
Qed.

(** X17: the check made at mount never notifies, opens nothing and never
    withdraws what it found: it marks Phantom as installed when the
    provider says so, and adopts the provider's address when the provider
    is already connected and has one; otherwise the session stays. *)
Theorem checkPhantomWallet_adopts_a_connected_wallet (s : State) (st : Storage) :
  let run := checkPhantomWallet env host (mkWorld s st) in
  let after := state_of run in
  let phantom := (walletInjected env && isPhantom host)%bool in
  trace_of run = []
  /\ storage_of run = st
  /\ openedWindows after = openedWindows s
  /\ isLoading after = isLoading s
  /\ isPhantomInstalled after = (isPhantomInstalled s || phantom)%bool
  /\ (forall address,
        phantom = true -> isConnected host = true ->
        publicKey host = Some address -> isEmpty address = false ->
        WalletConnect.walletAddress (session after) = Some address)
  /\ (phantom = false \/ isConnected host = false \/ publicKey host = None
      \/ publicKey host = Some "" ->
      session after = session s).
Proof.
  unfold checkPhantomWallet, state_of, storage_of, trace_of.
  destruct s as [[address0 balance0] loading installed opened].
  destruct (walletInjected env && isPhantom host)%bool eqn:Hphantom.
  - destruct (isConnected host) eqn:Hconnected.
    + destruct (publicKey host) as [address |] eqn:Hkey.
      * destruct (isEmpty address) eqn:Hempty; unfold_panel; cbn;
          rewrite ?orb_true_r; repeat split; try congruence.
        all: intros [H | [H | [H | H]]]; try discriminate; try reflexivity.
        all: injection H as ->; discriminate Hempty.
      * unfold_panel. cbn. rewrite ?orb_true_r. repeat split; try congruence.
    + unfold_panel. cbn. rewrite ?orb_true_r. repeat split; try congruence.
  - unfold_panel. cbn. rewrite ?orb_false_r. repeat split; try congruence.
Qed.
End Connecting.

Lemma connectWallet_outcomes_witness :
  let s := WalletPanel.mkState (WalletConnect.mkSession None (S754_zero false)) false true [] in
  let run := withRender (WalletPanel.connectWallet Sample.cooperative Scenes.phantom)
               (mkWorld s []) in
  WalletPanel.session (state_of run)
  = WalletConnect.mkSession (Some Sample.wallet) (S754_zero false)
  /\ notifications (trace_of run) = [(success, WalletPanel.wallet_connected)].
Proof.
  pose proof (connectWallet_outcomes Sample.cooperative Scenes.phantom
                (WalletPanel.mkState (WalletConnect.mkSession None (S754_zero false))
                   false true []) []) as H.
  cbv zeta in H. destruct H as [_ [_ [_ [_ H]]]].
  destruct (H eq_refl) as [_ [_ [Hconnected _]]].
  exact (Hconnected Sample.wallet eq_refl eq_refl).
Defined.

Lemma checkPhantomWallet_adopts_a_connected_wallet_witness :
  let s := WalletPanel.mkState (WalletConnect.mkSession None (S754_zero false))
             false false [] in
  let run := WalletPanel.checkPhantomWallet Sample.cooperative Scenes.phantom (mkWorld s []) in
  WalletPanel.isPhantomInstalled (state_of run) = true
  /\ WalletConnect.walletAddress (WalletPanel.session (state_of run)) = Some Sample.wallet.
Proof.
  pose proof (checkPhantomWallet_adopts_a_connected_wallet Sample.cooperative Scenes.phantom
                (WalletPanel.mkState (WalletConnect.mkSession None (S754_zero false))
                   false false []) []) as H.
  cbv zeta in H. destruct H as [_ [_ [_ [_ [Hinstalled [Hadopted _]]]]]].
  split; [exact Hinstalled |].
  exact (Hadopted Sample.wallet eq_refl eq_refl eq_refl eq_refl).
Defined.

(* ===================================================================== *)
(** * Notifications on the page *)
(* ===================================================================== *)

Section Notifications.
Import Home.

Lemma timely_initial : timely initial.
Proof. split; [constructor | intros H; now elim H]. Qed.

Lemma timely_happen (p : Page) (h : Happening) : timely p -> timely (happen p h).
Proof.
  intros [Hdue Hshown]. destruct h as [t m | d]; cbn [happen].
  - split; cbn.
    + apply Forall_app. split; [exact Hdue |]. constructor; [lia | constructor].
    + intros _. now destruct (timeouts p).
  - split; cbn.
    + apply Forall_forall. intros t Ht. apply filter_In in Ht as [Ht Hlate].
      rewrite Forall_forall in Hdue. specialize (Hdue t Ht).
      unfold due in Hlate. apply negb_true_iff, N.leb_gt in Hlate. lia.
    + destruct (existsb (due (now p + d)) (timeouts p)) eqn:Hany; [intros H; now elim H |].
      intros Hs. specialize (Hshown Hs).
      destruct (timeouts p) as [| t ts]; [now elim Hshown |].
      cbn in Hany. apply orb_false_iff in Hany as [Ht _]. cbn. now rewrite Ht.
Qed.

Lemma timely_after (hs : list Happening) (p : Page) : timely p -> timely (after hs p).
Proof.
  revert p. induction hs as [| h hs IH]; intros p Hp; [exact Hp |].
  cbn. apply IH. now apply timely_happen.
Qed.

Lemma filter_none {A} (f : A -> bool) (l : list A) :
  (forall x, In x l -> f x = false) -> filter f l = [].
Proof.
  induction l as [| x l IH]; intros H; [reflexivity |].
  cbn. rewrite (H x (or_introl eq_refl)). apply IH. intros y Hy. apply H. now right.
Qed.

Lemma timely_expires (p : Page) (d : N) :
  timely p -> (5000 <= d)%N ->
  shown (elapse d p) = None /\ timeouts (elapse d p) = [].
Proof.
  intros [Hdue Hshown] Hd. unfold elapse, shown. cbn.
  assert (Hall : forall t, In t (timeouts p) -> due (now p + d) t = true).
  { intros t Ht. rewrite Forall_forall in Hdue. specialize (Hdue t Ht).
    unfold due. apply N.leb_le. lia. }
  split.
  - destruct (timeouts p) as [| t ts] eqn:Hts.
    + cbn. destruct (type (notification p)) eqn:Hn; [| reflexivity].
      exfalso. apply Hshown; [discriminate | reflexivity].
    + cbn. now rewrite (Hall t (or_introl eq_refl)).
  - apply filter_none. intros t Ht. now rewrite (Hall t Ht).
Qed.

Lemma after_app (hs hs' : list Happening) (p : Page) :
  after (hs ++ hs') p = after hs' (after hs p).
Proof. apply fold_left_app. Qed.

(** X18: whatever has been shown and however long the page has been open,
    five seconds without a new notification leave nothing on screen and no
    timeout pending. *)
Theorem notification_expires (hs : list Happening) (d : N) :
  (5000 <= d)%N ->
  shown (after (hs ++ [Wait d]) initial) = None
  /\ timeouts (after (hs ++ [Wait d]) initial) = [].
Proof.
  intros Hd. rewrite after_app. cbn [after fold_left happen].
  apply timely_expires; [| exact Hd].
  apply timely_after, timely_initial.
Qed.

Lemma notification_expires_witness :
  (5000 <= 5000)%N
  /\ shown (after ([Show error "Failed to mint tokens. Please try again."; Wait 1200;
                    Show success "Wallet disconnected"] ++ [Wait 5000]) initial) = None.
Proof.
  split; [lia |].
  apply (notification_expires
           [Show error "Failed to mint tokens. Please try again."; Wait 1200;
            Show success "Wallet disconnected"] 5000).
  lia.
Defined.

(** X19: the timeout of a notification is never cancelled, so it also clears
    the notification that replaced it.  On a page with no timeout pending,
    a notification shown [d] milliseconds (0 < d < 5000) after another one
    stays on screen until the first one's five seconds are over, that is
    for [5000 - d] milliseconds only, and is then removed. *)
Theorem later_notification_is_cut_short
    (p : Page) (t1 t2 : NotificationType) (m1 m2 : string) (d : N) :
  timeouts p = [] ->
  (0 < d < 5000)%N ->
  (forall d', (d' < 5000 - d)%N ->
     shown (after [Show t1 m1; Wait d; Show t2 m2; Wait d'] p) = Some (t2, m2))
  /\ shown (after [Show t1 m1; Wait d; Show t2 m2; Wait (5000 - d)] p) = None.
Proof.
  intros Hnone Hd.
  assert (Hrun : forall d',
            shown (after [Show t1 m1; Wait d; Show t2 m2; Wait d'] p)
            = if (now p + 5000 <=? now p + d + d')%N then None else Some (t2, m2)).
  { intros d'. unfold after, shown. cbn. rewrite Hnone. cbn. unfold due.
    assert (H1 : (now p + 5000 <=? now p + d)%N = false) by (apply N.leb_gt; lia).
    rewrite H1. cbn. unfold due.
    destruct (N.leb_spec (now p + 5000) (now p + d + d')) as [Hle | Hlt]; [reflexivity |].
    assert (H2 : (now p + d + 5000 <=? now p + d + d')%N = false) by (apply N.leb_gt; lia).
    now rewrite H2. }
  split.
  - intros d' Hd'. rewrite Hrun.
    assert (H : (now p + 5000 <=? now p + d + d')%N = false) by (apply N.leb_gt; lia).
    now rewrite H.
  - rewrite Hrun.
    assert (H : (now p + 5000 <=? now p + d + (5000 - d))%N = true) by (apply N.leb_le; lia).
    now rewrite H.
Qed.

Lemma later_notification_is_cut_short_witness :
  shown (after [Show success "Token created successfully!"; Wait 4000;
                Show error "Failed to mint tokens. Please try again."; Wait 1000] initial)
  = None.
Proof.
  apply (later_notification_is_cut_short initial success error
           "Token created successfully!" "Failed to mint tokens. Please try again." 4000).
  - reflexivity.
  - lia.
Defined.
End Notifications.

(* ===================================================================== *)
(** * The balance on the page *)
(* ===================================================================== *)

Section Balance.

Variable env : Env.
Variable host : Host.

(** X20: the balance refresh.  Without a session address nothing is asked.
    With one, the balance becomes the ledger's lamports divided by
    1000000000; when the address is no public key or the ledger throws, the
    balance last read stays on screen.  The refresh never notifies and
    never touches the address or the storage. *)
Theorem getBalance_outcomes (s : WalletConnect.Session) (st : Storage) :
  let run := withRender (Home.getBalance env host) (mkWorld s st) in
  let after := state_of run in
  notifications (trace_of run) = []
  /\ storage_of run = st
  /\ WalletConnect.walletAddress after = WalletConnect.walletAddress s
  /\ (forall address lamports,
        WalletConnect.walletAddress s = Some address -> isEmpty address = false ->
        isPublicKey env address = true ->
        getBalance host address = Normal lamports ->
        WalletConnect.solBalance after = number_div lamports LAMPORTS_PER_SOL
        /\ trace_of run = [])
  /\ (forall address,
        WalletConnect.walletAddress s = Some address -> isEmpty address = false ->
        (isPublicKey env address = false
         \/ exists thrown, getBalance host address = Throw thrown) ->
        WalletConnect.solBalance after = WalletConnect.solBalance s
        /\ exists thrown, trace_of run = [ConsoleError "Error fetching balance:" thrown])
  /\ (WalletConnect.walletAddress s = None \/ WalletConnect.walletAddress s = Some "" ->
      run = (Normal tt, mkWorld s st, [])).
Proof.
  unfold withRender, Home.getBalance, state_of, storage_of, trace_of.
  destruct s as [[address |] balance]; cbn [component WalletConnect.walletAddress].
  - destruct (isEmpty address) eqn:Hempty.
    + unfold ret. cbn. repeat split; settle_cases.
    + unfold try_catch, bind, newPublicKey, await, Home.setSolBalance, setState, ret, throw,
        console_error, emit.
      destruct (isPublicKey env address) eqn:Hkey.
      * destruct (getBalance host address) as [lamports | thrown] eqn:Hbal; cbn;
          repeat split; settle_cases.
      * cbn. repeat split; settle_cases.
  - unfold ret. cbn. repeat split; settle_cases.
Qed.
End Balance.

Lemma getBalance_outcomes_witness :
  let s := WalletConnect.mkSession (Some Sample.wallet) (S754_zero false) in
  let run := withRender (Home.getBalance Sample.cooperative Scenes.phantom) (mkWorld s []) in
  WalletConnect.solBalance (state_of run) = parseFloat "2.5"
  /\ trace_of run = [].
Proof.
  pose proof (getBalance_outcomes Sample.cooperative Scenes.phantom
                (WalletConnect.mkSession (Some Sample.wallet) (S754_zero false)) []) as H.
  cbv zeta in H. destruct H as [_ [_ [_ [Hread _]]]].
  destruct (Hread Sample.wallet (of_Z 2500000000) eq_refl eq_refl eq_refl eq_refl)
    as [Hbalance Hquiet].
  split; [| exact Hquiet].
  cbv zeta. rewrite Hbalance. vm_compute. reflexivity.
Defined.

(* ===================================================================== *)
(** * Enabled buttons and short labels *)
(* ===================================================================== *)

Section Pressing.
Import Lifecycle Buttons.

Variable env : Env.
Variable walletAddress : string.
Variable st : Storage.

Lemma disabled_spec (f : Form) :
  disabled f = false ->
  existsb isEmpty (required_fields f) = false.
Proof.
  destruct f as [s | s | s]; destruct s; cbn; intros H;
    repeat match goal with
           | H : (_ || _)%bool = false |- _ => apply orb_false_iff in H as [? ?]
           end;
    repeat match goal with H : _ = false |- _ => rewrite H; clear H end; reflexivity.
Qed.

(** X21: the submit button is disabled whenever the handler's guard would
    refuse the form, so a press of an enabled button never asks to fill in
    all fields: it ends with exactly one notification, the operation's
    success message or its failure message. *)
Theorem enabled_button_ends_with_one_notification (f : Form) :
  disabled f = false ->
  let o := submit env walletAddress f st in
  (notifications (trace o) = [(success, success_message f)]
   \/ notifications (trace o) = [(error, failure_message f)])
  /\ ~ In (error, "Please fill in all fields") (notifications (trace o)).
Proof.
  intros Henabled o.
  assert (Hrun : notifications (trace o) = [(success, success_message f)]
                 \/ notifications (trace o) = [(error, failure_message f)]).
  { subst o. apply disabled_spec in Henabled.
    destruct f as [s | s | s]; destruct s;
      cbn [required_fields existsb CreateToken.tokenName CreateToken.tokenSymbol
           CreateToken.decimals MintToken.tokenMintAddress MintToken.amount
           SendToken.selectedToken SendToken.recipientAddress SendToken.amount] in Henabled;
      repeat match goal with
             | H : (_ || _)%bool = false |- _ => apply orb_false_iff in H as [? ?]
             end;
      unfold_submit; run_cases; cbn; try discriminate; auto;
      try (cbn in *; congruence).
    all: repeat match goal with
                | H : isEmpty ?x = false, H' : context [isEmpty ?x] |- _ =>
                    rewrite H in H'
                end; discriminate. }
  split; [exact Hrun |].
  destruct Hrun as [-> | ->]; intros [H | []]; [discriminate H |].
  destruct f; discriminate H.
Qed.
End Pressing.

Section Labels.
Import Utils Buttons.

Lemma slice_head_length (s : string) (n : Z) :
  0 <= n ->
  String.length (slice s 0 (Some n)) = Nat.min (Z.to_nat n) (String.length s).
Proof.
  intros Hn. unfold slice.
  replace (0 <? 0) with false by reflexivity.
  replace (n <? 0) with false by (symmetry; apply Z.ltb_ge; lia).
  rewrite substring_length; lia.
Qed.

Lemma slice_tail_length (s : string) (n : Z) :
  0 < n ->
  String.length (slice s (- n) None) = Nat.min (Z.to_nat n) (String.length s).
Proof.
  intros Hn. unfold slice.
  replace (- n <? 0) with true by (symmetry; apply Z.ltb_lt; lia).
  rewrite substring_length; lia.
Qed.

(** X22: the label written out on the recent-token buttons and in the token
    select is [truncateAddress] with its defaults exactly for addresses of
    more than eight characters.  A shorter one, which [truncateAddress]
    would show as it is, gets a label longer than itself. *)
Theorem short_label_and_truncateAddress (token : string) :
  (short_label token = truncateAddress token None None
   <-> (8 < String.length token)%nat)
  /\ ((String.length token <= 8)%nat ->
      (String.length token < String.length (short_label token))%nat).
Proof.
  assert (Hlen : String.length (short_label token)
                 = (2 * Nat.min 4 (String.length token) + 3)%nat).
  { unfold short_label. change (-4) with (Z.opp 4).
    rewrite !append_length, slice_head_length, slice_tail_length by lia.
    change (Z.to_nat 4) with 4%nat. change (String.length "...") with 3%nat. lia. }
  assert (Hshort : (String.length token <= 8)%nat ->
                   (String.length token < String.length (short_label token))%nat).
  { intros Hle. rewrite Hlen. lia. }
  split; [| exact Hshort]. split.
  - intros Heq. destruct (Nat.leb_spec (String.length token) 8) as [Hle | Hlt]; [| exact Hlt].
    exfalso. specialize (Hshort Hle). rewrite Heq in Hshort.
    unfold truncateAddress, or_default in Hshort.
    destruct (isEmpty token) eqn:Hempty.
    + cbn in Hshort. lia.
    + replace (Z.of_nat (String.length token) <=? 4 + 4) with true in Hshort
        by (symmetry; apply Z.leb_le; lia).
      lia.
  - intros Hlong. unfold truncateAddress, or_default.
    destruct token as [| c token]; [cbn in Hlong; lia |].
    cbn [isEmpty].
    replace (Z.of_nat (String.length (String c token)) <=? 4 + 4) with false
      by (symmetry; apply Z.leb_gt; lia).
    reflexivity.
Qed.
End Labels.

Lemma enabled_button_ends_with_one_notification_witness :
  Buttons.disabled (Lifecycle.Mint Scenes.mint_form) = false
  /\ ~ In (error, "Please fill in all fields")
          (notifications (Lifecycle.trace
             (Lifecycle.submit Sample.cooperative Sample.wallet
                (Lifecycle.Mint Scenes.mint_form) []))).
Proof.
  split; [reflexivity |].
  apply (enabled_button_ends_with_one_notification Sample.cooperative Sample.wallet []
           (Lifecycle.Mint Scenes.mint_form)).
  reflexivity.
Defined.

